(** * Chemical-engineering unit converter: a shallow embedding

    Source: [unit-conversion/che_unit_converter/che_unit_converter.py],
    class [ChemEngUnitConverter].

    Python values are embedded as follows.
    - [float] is IEEE-754 binary64, Rocq's primitive [float]; [+ - *] are the
      primitive operations and [/] raises [ZeroDivisionError] on a zero
      divisor, as Python's does.
    - [str] is [string]; the converter is ASCII-only by its own docstring.
      The one non-ASCII key, the temperature axis, is kept as its two UTF-8
      bytes. [str.isdigit] and [int()] are embedded as they act on ASCII
      strings, where the digits are the ten decimal digits and [int()]
      reads every run of them; a statement that depends on which characters
      the power scan of a token takes for digits is made for ASCII unit
      strings ([is_ascii]).
    - [dict] with [str] keys is [gmap string _]; a dict that is iterated in
      insertion order ([BASE_UNITS], [DERIVED_UNITS], [PREFIXES]) is an
      association list in the order of the source.
    - [raise] is the [Raise] branch of [result]. The three [ValueError]s of
      the source are told apart by their message and carry the values the
      message is built from.
    - [int] is [Z]. The interpreter's limit on the length of a digit string
      given to [int()] is a resource bound and is not modelled.

    The statement [if base_unit == 'L' and prefix in ['d', 'c']: pass] of
    [_build_unit_dictionary] has no effect and is left out; [dict.copy()]
    is the identity on values. *)

From Stdlib Require Import ZArith Ascii List Floats QArith Qabs.
From Stdlib Require String.
From stdpp Require Import gmap strings list fin_maps.
Import ListNotations.

Set Warnings "-inexact-float".
Local Open Scope Z_scope.

(** ** Python string built-ins used by the converter *)

Module Py.

(** [c in s] for a one-character [c]. *)
Fixpoint contains (c : ascii) (s : string) : bool :=
  match s with
  | EmptyString => false
  | String a s' => if Ascii.eqb a c then true else contains c s'
  end.

(** [s.replace(c, '')] for a one-character [c]. *)
Fixpoint remove (c : ascii) (s : string) : string :=
  match s with
  | EmptyString => EmptyString
  | String a s' => if Ascii.eqb a c then remove c s' else String a (remove c s')
  end.

(** [s.split(sep)] for a one-character [sep]: never empty, [''.split(sep)]
    is [['']]. *)
Fixpoint split (sep : ascii) (s : string) : list string :=
  match s with
  | EmptyString => [EmptyString]
  | String a s' =>
      if Ascii.eqb a sep then EmptyString :: split sep s'
      else match split sep s' with
           | [] => [String a EmptyString]
           | p :: ps => String a p :: ps
           end
  end.

(** [s.split(sep, 1)]: cut at the first [sep] only. *)
Fixpoint split1 (sep : ascii) (s : string) : list string :=
  match s with
  | EmptyString => [EmptyString]
  | String a s' =>
      if Ascii.eqb a sep then [EmptyString; s']
      else match split1 sep s' with
           | [] => [String a EmptyString]
           | p :: ps => String a p :: ps
           end
  end.

(** [s.startswith(p)]. *)
Fixpoint startswith (s p : string) : bool :=
  match p, s with
  | EmptyString, _ => true
  | String _ _, EmptyString => false
  | String b p', String a s' => if Ascii.eqb a b then startswith s' p' else false
  end.

(** [s.endswith(c)] for a one-character [c]. *)
Fixpoint endswith (s : string) (c : ascii) : bool :=
  match s with
  | EmptyString => false
  | String a EmptyString => Ascii.eqb a c
  | String _ s' => endswith s' c
  end.

(** [s[:n]] for [0 <= n]. *)
Fixpoint take (n : nat) (s : string) : string :=
  match n, s with
  | S n', String a s' => String a (take n' s')
  | _, _ => EmptyString
  end.

(** [s[n:]] for [0 <= n]. *)
Fixpoint drop (n : nat) (s : string) : string :=
  match n, s with
  | S n', String _ s' => drop n' s'
  | _, _ => s
  end.

(** [s[1:-1]]. *)
Definition strip_ends (s : string) : string :=
  take (String.length s - 2) (drop 1 s).

(** [c.isdigit()] on an ASCII character. *)
Definition isdigit (c : ascii) : bool :=
  let n := nat_of_ascii c in (48 <=? n)%nat && (n <=? 57)%nat.

(** [int(s)] on a string of ASCII digits, most significant first. *)
Fixpoint int_acc (acc : Z) (s : string) : Z :=
  match s with
  | EmptyString => acc
  | String a s' => int_acc (10 * acc + (Z.of_nat (nat_of_ascii a) - 48)) s'
  end.

Definition int (s : string) : Z := int_acc 0 s.

End Py.

(** ** Exceptions and results *)

Abbreviation dims := (gmap string Z).

Inductive exn : Type :=
| UnknownUnit (unit : string)
    (* ValueError(f"Unknown unit: {unit}") *)
| IncompatibleDimensions (from_unit : string) (from_dims : dims)
                         (to_unit : string) (to_dims : dims)
    (* ValueError(f"Incompatible dimensions: ...") *)
| UnknownTemperatureUnit (unit : string)
    (* ValueError(f"Unknown temperature unit: {unit}") *)
| ZeroDivisionError
| OverflowError
| IndexError.

Inductive result (A : Type) : Type :=
| Ok (a : A)
| Raise (e : exn).

Arguments Ok {A} a.
Arguments Raise {A} e.

#[global] Instance result_bind : MBind result :=
  fun A B (k : A -> result B) (r : result A) =>
    match r with
    | Ok a => k a
    | Raise e => Raise e
    end.

#[global] Instance result_ret : MRet result := fun A a => Ok a.

Definition succeeds {A} (r : result A) : bool :=
  match r with Ok _ => true | Raise _ => false end.

(** ** Python float arithmetic *)

(** [a / b]. *)
Definition float_div (a b : float) : result float :=
  if PrimFloat.eqb b 0%float then Raise ZeroDivisionError
  else Ok (PrimFloat.div a b).

Definition is_inf (x : float) : bool :=
  PrimFloat.eqb (PrimFloat.abs x) infinity.

(** The least Python [int] whose conversion to [float] overflows. *)
Definition float_max_int : Z := 2 ^ 1024 - 2 ^ 970.

(** [x ** n] for a float [x] and an [int] [n >= 0]. CPython converts [n] to a
    double, answers [1.0] when [n] is [0] or [x] is [1.0], otherwise calls C's
    [pow] and raises [OverflowError] on an infinite result of finite
    operands; a result that underflows to zero is returned. C's [pow] is not
    part of the repository: it is rendered as the product of [n] copies of
    [x], which is exact at [n = 1] (a token without a power suffix) and
    agrees with [pow] up to the rounding of the intermediate products
    elsewhere. *)
Definition float_pow (x : float) (n : Z) : result float :=
  if float_max_int <=? n then Raise OverflowError
  else if n =? 0 then Ok 1%float
  else if PrimFloat.eqb x 1%float then Ok 1%float
  else
    let r := Pos.iter (fun a => PrimFloat.mul a x) 1%float (Z.to_pos n) in
    if is_inf r && negb (is_inf x) then Raise OverflowError else Ok r.

(** ** Class attributes *)

(** The key of the temperature axis, Greek capital theta (U+0398). *)
Definition Theta : string := "Θ".

(** [DIMENSIONS] *)
Definition DIMENSIONS : list string := ["L"; "M"; "T"; Theta; "N"; "I"; "J"].

Record unit_data : Type := UnitData { factor : float; dimensions : dims }.

(** [d[k]] / [k in d] on a dict given by its items. *)
Fixpoint items_lookup {A} (k : string) (d : list (string * A)) : option A :=
  match d with
  | [] => None
  | (k', v) :: d' => if String.eqb k' k then Some v else items_lookup k d'
  end.

(** [BASE_UNITS] *)
Definition BASE_UNITS : list (string * unit_data) :=
  [ ("m", UnitData 1.0 {[ "L" := 1 ]});
    ("ft", UnitData 0.3048 {[ "L" := 1 ]});
    ("in", UnitData 0.0254 {[ "L" := 1 ]});
    ("g", UnitData 0.001 {[ "M" := 1 ]});
    ("kg", UnitData 1.0 {[ "M" := 1 ]});
    ("lb", UnitData 0.453592 {[ "M" := 1 ]});
    ("lbm", UnitData 0.453592 {[ "M" := 1 ]});
    ("s", UnitData 1.0 {[ "T" := 1 ]});
    ("min", UnitData 60.0 {[ "T" := 1 ]});
    ("hr", UnitData 3600.0 {[ "T" := 1 ]});
    ("h", UnitData 3600.0 {[ "T" := 1 ]});
    ("K", UnitData 1.0 {[ Theta := 1 ]});
    ("A", UnitData 1.0 {[ "I" := 1 ]});
    ("mol", UnitData 1.0 {[ "N" := 1 ]});
    ("gmol", UnitData 1.0 {[ "N" := 1 ]});
    ("lbmol", UnitData 453.59237 {[ "N" := 1 ]});
    ("cd", UnitData 1.0 {[ "J" := 1 ]}) ].

(** [DERIVED_UNITS] *)
Definition DERIVED_UNITS : list (string * unit_data) :=
  [ ("N", UnitData 1.0 {[ "M" := 1; "L" := 1; "T" := -2 ]});
    ("lbf", UnitData 4.44822 {[ "M" := 1; "L" := 1; "T" := -2 ]});
    ("Pa", UnitData 1.0 {[ "M" := 1; "L" := -1; "T" := -2 ]});
    ("bar", UnitData 1e5 {[ "M" := 1; "L" := -1; "T" := -2 ]});
    ("atm", UnitData 101325.0 {[ "M" := 1; "L" := -1; "T" := -2 ]});
    ("psi", UnitData 6894.76 {[ "M" := 1; "L" := -1; "T" := -2 ]});
    ("torr", UnitData 133.322 {[ "M" := 1; "L" := -1; "T" := -2 ]});
    ("mmHg", UnitData 133.322 {[ "M" := 1; "L" := -1; "T" := -2 ]});
    ("J", UnitData 1.0 {[ "M" := 1; "L" := 2; "T" := -2 ]});
    ("cal", UnitData 4.184 {[ "M" := 1; "L" := 2; "T" := -2 ]});
    ("Btu", UnitData 1055.06 {[ "M" := 1; "L" := 2; "T" := -2 ]});
    ("kWh", UnitData 3.6e6 {[ "M" := 1; "L" := 2; "T" := -2 ]});
    ("W", UnitData 1.0 {[ "M" := 1; "L" := 2; "T" := -3 ]});
    ("hp", UnitData 745.7 {[ "M" := 1; "L" := 2; "T" := -3 ]});
    ("L", UnitData 0.001 {[ "L" := 3 ]});
    ("gal", UnitData 0.00378541 {[ "L" := 3 ]});
    ("cP", UnitData 0.001 {[ "M" := 1; "L" := -1; "T" := -1 ]});
    ("P", UnitData 0.1 {[ "M" := 1; "L" := -1; "T" := -1 ]}) ].

(** [PREFIXES], in the order of the source: the resolver tries them in this
    order. *)
Definition PREFIXES : list (string * float) :=
  [ ("Y", 1e24); ("Z", 1e21); ("E", 1e18); ("P", 1e15); ("T", 1e12);
    ("G", 1e9); ("M", 1e6); ("k", 1e3); ("h", 1e2); ("da", 1e1);
    ("d", 1e-1); ("c", 1e-2); ("m", 1e-3); ("mu", 1e-6); ("u", 1e-6);
    ("n", 1e-9); ("p", 1e-12); ("f", 1e-15); ("a", 1e-18); ("z", 1e-21);
    ("y", 1e-24) ]%float.

(** [TEMPERATURE_UNITS] *)
Definition TEMPERATURE_UNITS : gset string := {[ "K"; "degC"; "degF"; "degR" ]}.

(** [u in self.TEMPERATURE_UNITS] *)
Definition is_temperature_unit (u : string) : bool :=
  bool_decide (u ∈ TEMPERATURE_UNITS).

(** ** Instance state and [__init__] *)

Record converter : Type := Converter {
  unit_dict : gmap string float;
  dimension_dict : gmap string dims
}.

(** The two loops "Add base units" and "Add derived units". *)
Definition add_units (table : list (string * unit_data)) (self : converter)
  : converter :=
  fold_left
    (fun self '(unit, data) =>
       Converter (<[unit := factor data]> (unit_dict self))
                 (<[unit := dimensions data]> (dimension_dict self)))
    table self.

(** List of the symbols that receive prefixed variants. *)
Definition base_si_units : list string :=
  ["m"; "g"; "s"; "A"; "mol"; "gmol"; "cd"; "Pa"; "J"; "W"; "N"; "L"].

(** Body of the inner loop of [_build_unit_dictionary]. *)
Definition add_prefixed (base_unit : string) (self : converter)
    (entry : string * float) : converter :=
  let '(prefix, pfactor) := entry in
  if String.eqb base_unit "kg" && String.eqb prefix "k" then self
  else if String.eqb base_unit "gmol" && String.eqb prefix "k" then self
  else
    let prefixed_unit := prefix +:+ base_unit in
    let found :=
      match items_lookup base_unit BASE_UNITS with
      | Some data => Some data
      | None => items_lookup base_unit DERIVED_UNITS
      end in
    match found with
    | Some data =>
        Converter
          (<[prefixed_unit := PrimFloat.mul (factor data) pfactor]> (unit_dict self))
          (<[prefixed_unit := dimensions data]> (dimension_dict self))
    | None => self
    end.

(** [_build_unit_dictionary] *)
Definition _build_unit_dictionary (self : converter) : converter :=
  let self := add_units BASE_UNITS self in
  let self := add_units DERIVED_UNITS self in
  fold_left
    (fun self base_unit => fold_left (add_prefixed base_unit) PREFIXES self)
    base_si_units self.

(** [ChemEngUnitConverter()] *)
Definition ChemEngUnitConverter : converter :=
  _build_unit_dictionary (Converter ∅ ∅).

(** ** Dimension dictionaries *)

(** [d.get(dim, 0)] *)
Definition dims_get (d : dims) (dim : string) : Z := default 0 (d !! dim).

(** [for dim, exp in d.items(): acc[dim] = acc.get(dim, 0) + exp] *)
Definition dims_add (acc d : dims) : dims :=
  map_fold (fun dim exp acc => <[dim := dims_get acc dim + exp]> acc) acc d.

(** [for dim, exp in d.items(): acc[dim] = acc.get(dim, 0) - exp] *)
Definition dims_sub (acc d : dims) : dims :=
  map_fold (fun dim exp acc => <[dim := dims_get acc dim - exp]> acc) acc d.

(** [{dim: exp * power for dim, exp in d.items()}] *)
Definition dims_scale (d : dims) (power : Z) : dims :=
  (fun exp => exp * power) <$> d.

(** [_check_dimensional_compatibility] *)
Definition _check_dimensional_compatibility (from_dims to_dims : dims) : bool :=
  let all_dims : gset string := dom from_dims ∪ dom to_dims in
  forallb
    (fun dim => Z.eqb (dims_get from_dims dim) (dims_get to_dims dim))
    (elements all_dims).

(** ** Unit-factor resolver *)

Section Resolver.

Variable self : converter.

(** The loop over [PREFIXES] of [_get_unit_dimensions]. *)
Fixpoint dimensions_by_prefix (unit : string) (prefixes : list (string * float))
  : option dims :=
  match prefixes with
  | [] => None
  | (prefix, _) :: rest =>
      if Py.startswith unit prefix then
        let base_unit := Py.drop (String.length prefix) unit in
        match dimension_dict self !! base_unit with
        | Some d => Some d
        | None => dimensions_by_prefix unit rest
        end
      else dimensions_by_prefix unit rest
  end.

(** [_get_unit_dimensions] *)
Definition _get_unit_dimensions (unit : string) : result dims :=
  match dimension_dict self !! unit with
  | Some d => Ok d
  | None =>
      match dimensions_by_prefix unit PREFIXES with
      | Some d => Ok d
      | None =>
          if String.eqb unit "kg" then Ok {[ "M" := 1 ]}
          else Raise (UnknownUnit unit)
      end
  end.

(** The loop over [PREFIXES.items()] of [_get_unit_factor]. *)
Fixpoint factor_by_prefix (unit : string) (prefixes : list (string * float))
  : option float :=
  match prefixes with
  | [] => None
  | (prefix, prefix_factor) :: rest =>
      if Py.startswith unit prefix then
        let base_unit := Py.drop (String.length prefix) unit in
        match unit_dict self !! base_unit with
        | Some f => Some (PrimFloat.mul f prefix_factor)
        | None => factor_by_prefix unit rest
        end
      else factor_by_prefix unit rest
  end.

(** [_get_unit_factor] *)
Definition _get_unit_factor (unit : string) : result float :=
  match unit_dict self !! unit with
  | Some f => Ok f
  | None =>
      match factor_by_prefix unit PREFIXES with
      | Some f => Ok f
      | None =>
          if String.eqb unit "kg" then Ok 1%float
          else Raise (UnknownUnit unit)
      end
  end.

(** The [while] loop of the power-suffix scan, with the [i += 1] that
    follows it: called on [i + 1], it returns the index where the trailing
    run of digits that ends at [i] starts. *)
Fixpoint scan_digits (unit_str : string) (i1 : nat) : nat :=
  match i1 with
  | O => O
  | S i =>
      match String.get i unit_str with
      | Some c => if Py.isdigit c then scan_digits unit_str i else S i
      | None => S i
      end
  end.

(** "Check for power suffix": the pair [(base_unit, power)]. *)
Definition power_suffix (unit_str : string) : string * Z :=
  let last_is_digit :=
    match String.get (String.length unit_str - 1) unit_str with
    | Some c => Py.isdigit c
    | None => false
    end in
  if last_is_digit then
    let i := scan_digits unit_str (String.length unit_str) in
    (Py.take i unit_str, Py.int (Py.drop i unit_str))
  else (unit_str, 1).

(** The temperature branch of [_parse_simple_unit_with_dims]; [None] when
    control falls through to the general case. *)
Definition temperature_scale (unit_str : string) : option (float * dims) :=
  if is_temperature_unit unit_str then
    if String.eqb unit_str "K" || String.eqb unit_str "degC" then
      Some (1%float, {[ Theta := 1 ]})
    else if String.eqb unit_str "degF" || String.eqb unit_str "degR" then
      Some (PrimFloat.div 5 9, {[ Theta := 1 ]})
    else None
  else None.

(** [_parse_simple_unit_with_dims] *)
Definition _parse_simple_unit_with_dims (unit_str : string)
  : result (float * dims) :=
  if String.eqb unit_str "" || String.eqb unit_str "1" then Ok (1%float, ∅)
  else
    match temperature_scale unit_str with
    | Some r => Ok r
    | None =>
        let '(base_unit, power) := power_suffix unit_str in
        base_factor ← _get_unit_factor base_unit;
        base_dims ← _get_unit_dimensions base_unit;
        let final_dims := dims_scale base_dims power in
        f ← float_pow base_factor power;
        Ok (f, final_dims)
    end.

(** ** Expression parser *)

Record parts : Type := Parts {
  numerator : list string;
  denominator : list string
}.

(** [l[i]] *)
Definition list_index {A} (l : list A) (i : nat) : result A :=
  match l !! i with
  | Some x => Ok x
  | None => Raise IndexError
  end.

(** Strip one enclosing pair of parentheses: the two [if]s of
    [_split_unit_expression]. *)
Definition strip_parens (group : string) : string :=
  if Py.startswith group "(" && Py.endswith group ")"
  then Py.strip_ends group else group.

(** [_split_unit_expression] *)
Definition _split_unit_expression (unit_expr : string) : result parts :=
  let expr := Py.remove " " unit_expr in
  if negb (Py.contains "/" expr) then Ok (Parts [expr] ["1"])
  else if Py.contains "(" expr && Py.contains ")" expr then
    let ps := Py.split1 "/" expr in
    num ← list_index ps 0;
    den ← list_index ps 1;
    let den := strip_parens den in
    let num := strip_parens num in
    Ok (Parts [num] [den])
  else
    let ps := Py.split "/" expr in
    num ← list_index ps 0;
    let denominator_parts :=
      if (1 <? length ps)%nat then List.skipn 1 ps else ["1"] in
    Ok (Parts [num] denominator_parts).

(** The loop over the [subparts] of a part that contains a dot. *)
Fixpoint parse_subparts (subparts : list string) (subfactor : float)
    (subdims : dims) : result (float * dims) :=
  match subparts with
  | [] => Ok (subfactor, subdims)
  | subpart :: rest =>
      '(f, d) ← _parse_simple_unit_with_dims subpart;
      parse_subparts rest (PrimFloat.mul subfactor f) (dims_add subdims d)
  end.

(** The loop "Parse numerator parts" (and, identically, "Parse denominator
    parts") on the accumulators [side_factor] and [side_dims]. *)
Fixpoint parse_parts (ps : list string) (side_factor : float)
    (side_dims : dims) : result (float * dims) :=
  match ps with
  | [] => Ok (side_factor, side_dims)
  | part :: rest =>
      if Py.contains "." part then
        '(subfactor, subdims) ← parse_subparts (Py.split "." part) 1%float ∅;
        parse_parts rest (PrimFloat.mul side_factor subfactor)
                    (dims_add side_dims subdims)
      else
        '(f, d) ← _parse_simple_unit_with_dims part;
        parse_parts rest (PrimFloat.mul side_factor f) (dims_add side_dims d)
  end.

(** [_parse_unit_expression_with_dims] *)
Definition _parse_unit_expression_with_dims (unit_expr : string)
  : result (float * dims) :=
  if String.eqb unit_expr "" || String.eqb unit_expr "1"
     || String.eqb unit_expr "dimensionless" then Ok (1%float, ∅)
  else if negb (Py.contains "/" unit_expr) && negb (Py.contains "." unit_expr)
  then _parse_simple_unit_with_dims unit_expr
  else
    ps ← _split_unit_expression unit_expr;
    '(numerator_factor, numerator_dims) ← parse_parts (numerator ps) 1%float ∅;
    '(denominator_factor, denominator_dims) ←
        parse_parts (denominator ps) 1%float ∅;
    let final_dims := dims_sub numerator_dims denominator_dims in
    f ← float_div numerator_factor denominator_factor;
    Ok (f, final_dims).

(** ** Converter *)

(** [_convert_temperature] *)
Definition _convert_temperature (value : float) (from_unit to_unit : string)
  : result float :=
  temp_k ←
    (if String.eqb from_unit "K" then Ok value
     else if String.eqb from_unit "degC" then Ok (value + 273.15)%float
     else if String.eqb from_unit "degF" then
       Ok ((value - 32) * 5 / 9 + 273.15)%float
     else if String.eqb from_unit "degR" then Ok (value * 5 / 9)%float
     else Raise (UnknownTemperatureUnit from_unit));
  if String.eqb to_unit "K" then Ok temp_k
  else if String.eqb to_unit "degC" then Ok (temp_k - 273.15)%float
  else if String.eqb to_unit "degF" then
    Ok ((temp_k - 273.15) * 9 / 5 + 32)%float
  else if String.eqb to_unit "degR" then Ok (temp_k * 9 / 5)%float
  else Raise (UnknownTemperatureUnit to_unit).

(** [convert] *)
Definition convert (value : float) (from_unit to_unit : string)
  : result float :=
  if is_temperature_unit from_unit && is_temperature_unit to_unit then
    _convert_temperature value from_unit to_unit
  else
    '(from_factor, from_dims) ← _parse_unit_expression_with_dims from_unit;
    '(to_factor, to_dims) ← _parse_unit_expression_with_dims to_unit;
    if negb (_check_dimensional_compatibility from_dims to_dims) then
      Raise (IncompatibleDimensions from_unit from_dims to_unit to_dims)
    else
      q ← float_div from_factor to_factor;
      Ok (value * q)%float.

End Resolver.

Abbreviation conv := ChemEngUnitConverter.

(** * The package interface and its test suite *)

(** ** [che_unit_converter/__init__.py] *)

(** The singleton instance. *)
Definition _converter : converter := ChemEngUnitConverter.

(** The package-level [convert] and its alias [cheuc]. *)
Definition cheuc (value : float) (from_unit to_unit : string) : result float :=
  convert _converter value from_unit to_unit.

(** ** [reza_ghoroghi_che_converter.py] *)

(** A case of [test_cases]: a dict with the keys [value], [from_unit],
    [to_unit] and [expected]. *)
Record test_case : Type := TestCase {
  tc_value : float;
  tc_from_unit : string;
  tc_to_unit : string;
  tc_expected : float
}.

Definition tolerance : float := 1e-3.

Definition test_cases : list test_case :=
  [ TestCase 1e-2 "m/s" "ft/min" 1.968503937;
    TestCase 1e2 "mm" "in" 3.937007874;
    TestCase 1 "kg/m3" "g/L" 1;
    TestCase 1e2 "kg/m3" "lb/ft3" 6.242796058;
    TestCase 1e-2 "kg/m2.s" "lb/ft2.hr" 7.373381094;
    TestCase 1e-4 "m3/s" "L/min" 6;
    TestCase 1e-3 "m3/s" "ft3/hr" 1.271328002e2;
    TestCase 1 "mol/s" "kmol/hr" 3.6;
    TestCase 1 "mol/s" "lbmol/hr" 7.936633914824;
    TestCase 1 "mol/m3.s" "kmol/m3.hr" 3.6;
    TestCase 1e2 "mol/m3.s" "mol/L.min" 6;
    TestCase 1 "W/m3" "kJ/m3.hr" 3.6;
    TestCase 1e4 "W/m3" "kcal/m3.s" 2.390057361;
    TestCase 1e1 "W/m2.K" "kcal/m2.hr.degC" 8.60437847;
    TestCase 1e1 "W/m2.K" "Btu/ft2.hr.degF" 1.761101819;
    TestCase 1e-4 "m2/s" "cm2/s" 1;
    TestCase 1e-4 "m2/s" "ft2/hr" 3.8750077512;
    TestCase 1e4 "cP" "lb/ft.s" 6.719689751;
    TestCase 1e4 "J/kg.K" "cal/g.degC" 2.39010513;
    TestCase 1e4 "J/kg.K" "Btu/lb.degF" 2.388458966;
    TestCase 1e5 "Pa/m" "psi/ft" 4.420750245;
    TestCase 1e-7 "m3/mol.s" "ft3/lbmol.hr" 5.766646815 ]%float.

(** The cases of [non_consistent_test_cases]; they have no expected value. *)
Definition non_consistent_test_cases : list (float * string * string) :=
  [ (1.0, "J", "W");
    (10.0, "kg", "Pa");
    (0.5, "mol/s", "kg/hr");
    (3.0, "W/m2.K", "cal/m.s.degF") ]%float.

(** The exceptions of the model that are a [ValueError] in the source. *)
Definition is_ValueError (e : exn) : bool :=
  match e with
  | UnknownUnit _ | IncompatibleDimensions _ _ _ _ | UnknownTemperatureUnit _ =>
      true
  | ZeroDivisionError | OverflowError | IndexError => false
  end.

(** [test_unit_conversions]: whether the assertion holds on [case]. *)
Definition test_unit_conversions (case : test_case) : bool :=
  match cheuc (tc_value case) (tc_from_unit case) (tc_to_unit case) with
  | Ok r => PrimFloat.leb (PrimFloat.abs (r - tc_expected case)) tolerance
  | Raise _ => false
  end.

(** [test_inconsistent_dimensions]: whether [pytest.raises(ValueError)] is
    satisfied on [case]. *)
Definition test_inconsistent_dimensions (case : float * string * string)
  : bool :=
  let '(value, from_unit, to_unit) := case in
  match cheuc value from_unit to_unit with
  | Ok _ => false
  | Raise e => is_ValueError e
  end.

(** ** The example scripts *)

(** Running a script: its calls of [cheuc] are made in order, and the first
    exception, which the script does not catch, ends the run. The printing
    around the calls is left out. *)
Fixpoint run_calls (calls : list (float * string * string))
  : result (list float) :=
  match calls with
  | [] => Ok []
  | (value, from_unit, to_unit) :: rest =>
      r ← cheuc value from_unit to_unit;
      rs ← run_calls rest;
      Ok (r :: rs)
  end.

(** The calls of [examples/basic_usage.py], in order: the arguments of its
    f-strings (the strings of its lines 16 and 18 are no f-strings and call
    nothing). *)
Definition basic_usage_calls : list (float * string * string) :=
  [ (1, "ft", "m");
    (1, "atm", "Pa");
    (1, "bar", "kPa");
    (14.7, "psi", "atm");
    (100, "degC", "degF");
    (32, "degF", "degC");
    (300, "K", "degC");
    (1, "Btu", "J");
    (1, "cal", "J");
    (1, "kW-h", "MJ") ]%float.

(** The calls of [examples/chemical_engineering.py] outside its two [try]
    blocks, in order. *)
Definition chemical_engineering_calls : list (float * string * string) :=
  [ (8.314, "J/(mol.K)", "cal/(mol.K)");
    (8.314, "J/(mol.K)", "Btu/(lbmol.degR)");
    (8.314, "J/(mol.K)", "psia.ft3/(lbmol.degR)");
    (8.314, "J/(mol.K)", "atm.L/(mol.K)");
    (1000, "W/(m2.K)", "Btu/(h.ft2.degF)");
    (50, "W/(m.K)", "Btu/(h.ft.degF)");
    (10000, "W/m2", "Btu/(h.ft2)");
    (1, "kmol/s", "lbmol/h");
    (100, "gmol/s", "lbmol/s");
    (1, "mol/L", "lbmol/ft3");
    (0.1, "gmol/m3", "lbmol/gal");
    (1, "cP", "Pa.s");
    (100, "cP", "lb/(ft.h)");
    (1, "J/(g.K)", "Btu/(lb.degF)") ]%float.

(** * Vocabulary of the statements *)

(** ** Tokens *)

(** Strings of ASCII characters, every code point below 128: on these
    [str.isdigit] holds of the ten decimal digits only, and [int()] reads
    every run of them. *)
Fixpoint is_ascii (s : string) : bool :=
  match s with
  | EmptyString => true
  | String a s' => (nat_of_ascii a <? 128)%nat && is_ascii s'
  end.

(** Strings of decimal digits. *)
Fixpoint all_digits (s : string) : bool :=
  match s with
  | EmptyString => true
  | String a s' => Py.isdigit a && all_digits s'
  end.

(** The test [unit_str[-1].isdigit()]. *)
Definition last_is_digit (unit_str : string) : bool :=
  match String.get (String.length unit_str - 1) unit_str with
  | Some c => Py.isdigit c
  | None => false
  end.

(** The scan stops in front of a symbol that does not end in a digit. *)
Definition scan_stops (s ds : string) : Prop :=
  scan_digits (s +:+ ds) (String.length s) = String.length s.

(** The tokens of a part, in the order [parse_parts] resolves them. *)
Definition group_tokens (part : string) : list string :=
  if Py.contains "." part then Py.split "." part else [part].

Definition side_tokens (ps : list string) : list string :=
  flat_map group_tokens ps.

(** The tokens [_parse_unit_expression_with_dims] hands to
    [_parse_simple_unit_with_dims], in order. *)
Definition expression_tokens (unit_expr : string) : list string :=
  if String.eqb unit_expr "" || String.eqb unit_expr "1"
     || String.eqb unit_expr "dimensionless" then []
  else if negb (Py.contains "/" unit_expr) && negb (Py.contains "." unit_expr)
  then [unit_expr]
  else
    match _split_unit_expression unit_expr with
    | Ok ps => side_tokens (numerator ps) ++ side_tokens (denominator ps)
    | Raise _ => []
    end.

(** "Resolved to a unit-table entry, directly or after stripping a known
    prefix from the front". *)
Definition table_resolvable (self : converter) (unit : string) : bool :=
  bool_decide (is_Some (unit_dict self !! unit))
  || existsb
       (fun entry : string * float =>
          Py.startswith unit (fst entry)
          && bool_decide
               (is_Some (unit_dict self
                           !! Py.drop (String.length (fst entry)) unit)))
       PREFIXES.

(** A token that reaches the table and is not resolved there: it is not
    empty, not ["1"], not a temperature symbol, and what is left of it
    without its power suffix is not resolvable. *)
Definition token_unresolved (self : converter) (t : string) : bool :=
  negb (String.eqb t "" || String.eqb t "1")
  && negb (is_temperature_unit t)
  && negb (table_resolvable self (fst (power_suffix t))).

(** The exception of the first token that does not resolve. *)
Fixpoint first_error (self : converter) (tokens : list string)
  : option exn :=
  match tokens with
  | [] => None
  | t :: rest =>
      match _parse_simple_unit_with_dims self t with
      | Raise e => Some e
      | Ok _ => first_error self rest
      end
  end.

(** ** Groups and parentheses *)

(** A group, bare or wrapped in one pair of parentheses. *)
Definition wrap (b : bool) (g : string) : string :=
  if b then String "(" (g +:+ String ")" EmptyString) else g.

Definition paren_free (g : string) : Prop :=
  Py.contains "(" g = false /\ Py.contains ")" g = false.

Definition slash_free (g : string) : Prop := Py.contains "/" g = false.

(** ** Temperature scales *)

Inductive temperature_symbol : Type := Kelvin | Celsius | Fahrenheit | Rankine.

Definition symbol (t : temperature_symbol) : string :=
  match t with
  | Kelvin => "K"
  | Celsius => "degC"
  | Fahrenheit => "degF"
  | Rankine => "degR"
  end.

(** The specification's affine formulas, out of Kelvin:
    [degC = K - 273.15], [degF = (K - 273.15) * 9/5 + 32], [degR = K * 9/5]. *)
Definition spec_fromKelvin (k : float) (t : temperature_symbol) : float :=
  match t with
  | Kelvin => k
  | Celsius => k - 273.15
  | Fahrenheit => (k - 273.15) * 9 / 5 + 32
  | Rankine => k * 9 / 5
  end%float.

(** Their inverses, into Kelvin. *)
Definition spec_toKelvin (v : float) (t : temperature_symbol) : float :=
  match t with
  | Kelvin => v
  | Celsius => v + 273.15
  | Fahrenheit => (v - 32) * 5 / 9 + 273.15
  | Rankine => v * 5 / 9
  end%float.

(** The scale of a temperature symbol used as a token. *)
Definition scale_factor (t : temperature_symbol) : float :=
  match t with
  | Kelvin | Celsius => 1
  | Fahrenheit | Rankine => 5 / 9
  end%float.

(** ** Tolerance *)

(** The exact rational value of a finite float. *)
Definition float_to_Q (x : float) : option Q :=
  match Prim2SF x with
  | S754_zero _ => Some 0%Q
  | S754_finite s m e =>
      let mag := (inject_Z (Z.pos m) * Qpower 2 e)%Q in
      Some (if s then Qopp mag else mag)
  | _ => None
  end.

(** [r] is [expected] up to a relative error of [1e-9]. *)
Definition within_tolerance (r expected : float) : bool :=
  match float_to_Q r, float_to_Q expected with
  | Some qr, Some qe =>
      Qle_bool (Qabs (qr - qe)) ((1 # 1000000000) * Qabs qe)
  | _, _ => false
  end.

Definition prefix_consistent (b : string) (entry : string * float) : bool :=
  match convert conv 1 (fst entry +:+ b) b with
  | Ok r => within_tolerance r (snd entry) && PrimFloat.eqb r (snd entry)
  | Raise _ => false
  end.

(** ** An expression whose factor underflows *)

(** Fourteen yoctometres multiplied together: the factor [1e-336] underflows
    to zero. *)
Definition ym14 : string := "ym.ym.ym.ym.ym.ym.ym.ym.ym.ym.ym.ym.ym.ym".

(** ** Vocabulary of the further properties *)

(** [unit_dict] and [dimension_dict] have the same keys. *)
Definition same_keys (self : converter) : Prop :=
  dom (unit_dict self) = dom (dimension_dict self).

Definition is_some {A} (o : option A) : bool :=
  match o with Some _ => true | None => false end.

Definition by_prefix (self : converter) (unit : string)
    (entry : string * float) : bool :=
  Py.startswith unit (fst entry)
  && bool_decide
       (is_Some (unit_dict self !! Py.drop (String.length (fst entry)) unit)).

(** What [convert] may raise on the units [from_unit] and [to_unit]. *)
Definition expected_error (from_unit to_unit : string) (e : exn) : Prop :=
  match e with
  | UnknownUnit unit =>
      exists t, In t (expression_tokens from_unit ++ expression_tokens to_unit)
                /\ unit = fst (power_suffix t)
  | IncompatibleDimensions u1 _ u2 _ => u1 = from_unit /\ u2 = to_unit
  | ZeroDivisionError | OverflowError => True
  | UnknownTemperatureUnit _ | IndexError => False
  end.

(** The space and the three characters of the expression grammar. *)
Definition foreign_chars : list ascii := [" "; "/"; "("; ")"]%char.

(** The tokens of the numerator side, and of the denominator side. *)
Definition numerator_tokens (unit_expr : string) : list string :=
  if String.eqb unit_expr "" || String.eqb unit_expr "1"
     || String.eqb unit_expr "dimensionless" then []
  else if negb (Py.contains "/" unit_expr) && negb (Py.contains "." unit_expr)
  then [unit_expr]
  else
    match _split_unit_expression unit_expr with
    | Ok ps => side_tokens (numerator ps)
    | Raise _ => []
    end.

Definition denominator_tokens (unit_expr : string) : list string :=
  if String.eqb unit_expr "" || String.eqb unit_expr "1"
     || String.eqb unit_expr "dimensionless" then []
  else if negb (Py.contains "/" unit_expr) && negb (Py.contains "." unit_expr)
  then []
  else
    match _split_unit_expression unit_expr with
    | Ok ps => side_tokens (denominator ps)
    | Raise _ => []
    end.

(** The exponent of the axis [dim] in the token [t]. *)
Definition token_exponent (self : converter) (dim t : string) : Z :=
  match _parse_simple_unit_with_dims self t with
  | Ok (_, d) => dims_get d dim
  | Raise _ => 0
  end.

Definition exponent_sum (self : converter) (dim : string) (ts : list string)
  : Z :=
  foldr (fun t acc => token_exponent self dim t + acc) 0 ts.

(** [o] holds exactly the float [x]. *)
Definition holds_float (o : option float) (x : float) : bool :=
  match o with
  | Some y => PrimFloat.Leibniz.eqb y x
  | None => false
  end.

(** [o] holds exactly the dimension vector [d]. *)
Definition holds_dims (o : option dims) (d : dims) : bool :=
  match o with
  | Some d' => bool_decide (d' = d)
  | None => false
  end.

(** The declared entry [e] is in the table as declared. *)
Definition declared_entry_kept (e : string * unit_data) : bool :=
  holds_float (unit_dict conv !! fst e) (factor (snd e))
  && holds_dims (dimension_dict conv !! fst e) (dimensions (snd e)).

(** The entry generated from the declared entry [e] and the prefix entry
    [pe] is in the table with the factor of the loop body; [kgmol] and the
    symbols outside [base_si_units] are passed over. *)
Definition generated_entry_kept (e : string * unit_data)
    (pe : string * float) : bool :=
  if existsb (String.eqb (fst e)) base_si_units
     && negb (String.eqb (fst e) "gmol" && String.eqb (fst pe) "k")
  then
    holds_float (unit_dict conv !! (fst pe +:+ fst e))
                (PrimFloat.mul (factor (snd e)) (snd pe))
    && holds_dims (dimension_dict conv !! (fst pe +:+ fst e))
                  (dimensions (snd e))
  else true.

(** The unit [u] converted into itself leaves the value alone: through the
    temperature branch for [K], by a factor ratio that is exactly 1.0 for
    any other unit. *)
Definition identity_checked (self : converter) (u : string) : bool :=
  if is_temperature_unit u then String.eqb u "K"
  else
    match _parse_unit_expression_with_dims self u with
    | Ok (f, _) =>
        match float_div f f with
        | Ok q => PrimFloat.Leibniz.eqb q 1
        | Raise _ => false
        end
    | Raise _ => false
    end.

(** The power of the token [t] is one that the model computes as C's [pow]
    does: the exponent is 0 or 1, or the factor of the symbol is 1.0. *)
Definition power_is_exact (t : string) : bool :=
  let '(base_unit, power) := power_suffix t in
  (power <=? 1)
  || match _get_unit_factor _converter base_unit with
     | Ok f => PrimFloat.eqb f 1
     | Raise _ => true
     end.

Definition powers_are_exact (case : test_case) : bool :=
  forallb power_is_exact
    (expression_tokens (tc_from_unit case) ++ expression_tokens (tc_to_unit case)).

(** * Facts *)

(** ** Results *)

Lemma bind_Ok {A B} (a : A) (k : A -> result B) : (Ok a ≫= k) = k a.
Proof. reflexivity. Qed.

Lemma bind_Raise {A B} (e : exn) (k : A -> result B) : (Raise e ≫= k) = Raise e.
Proof. reflexivity. Qed.

Lemma succeeds_Ok {A} (r : result A) : succeeds r = true -> exists a, r = Ok a.
Proof. destruct r; [eauto | discriminate]. Qed.

(** ** Python strings *)

Module PyFacts.
Import Py.

Lemma length_app s t :
  String.length (s +:+ t) = (String.length s + String.length t)%nat.
Proof. induction s as [|a s IH]; simpl; [reflexivity | now rewrite IH]. Qed.

Lemma app_cons a (s t : string) : String a s +:+ t = String a (s +:+ t).
Proof. reflexivity. Qed.

Lemma app_assoc_str (s t u : string) : (s +:+ t) +:+ u = s +:+ (t +:+ u).
Proof.
  induction s as [|a s IH]; [reflexivity |].
  rewrite !app_cons. f_equal. exact IH.
Qed.

Lemma get_app_r s t k :
  String.get (String.length s + k) (s +:+ t) = String.get k t.
Proof. induction s as [|a s IH]; simpl; [reflexivity | exact IH]. Qed.

Lemma take_app s t : take (String.length s) (s +:+ t) = s.
Proof. induction s as [|a s IH]; simpl; [now destruct t | now rewrite IH]. Qed.

Lemma drop_app s t : drop (String.length s) (s +:+ t) = t.
Proof. induction s as [|a s IH]; simpl; [now destruct t | exact IH]. Qed.

Lemma contains_app c s t : contains c (s +:+ t) = contains c s || contains c t.
Proof.
  induction s as [|a s IH]; simpl; [reflexivity |].
  destruct (Ascii.eqb a c); [reflexivity | exact IH].
Qed.

Lemma remove_app c s t : remove c (s +:+ t) = remove c s +:+ remove c t.
Proof.
  induction s as [|a s IH]; simpl; [reflexivity |].
  destruct (Ascii.eqb a c); simpl; now rewrite IH.
Qed.

Lemma contains_remove c d s :
  c <> d -> contains c (remove d s) = contains c s.
Proof.
  intros Hne. induction s as [|a s IH]; simpl; [reflexivity |].
  destruct (Ascii.eqb_spec a d) as [->|Had]; simpl.
  - destruct (Ascii.eqb_spec d c); [congruence | exact IH].
  - now rewrite IH.
Qed.

Lemma split_nonempty sep s : split sep s <> [].
Proof.
  destruct s as [|a s]; simpl; [discriminate |].
  destruct (Ascii.eqb a sep); [discriminate |].
  destruct (split sep s); discriminate.
Qed.

Lemma split_no_sep sep s : contains sep s = false -> split sep s = [s].
Proof.
  induction s as [|a s IH]; simpl; [reflexivity |].
  destruct (Ascii.eqb a sep); [discriminate |].
  intros H. now rewrite (IH H).
Qed.

Lemma split1_no_sep sep s : contains sep s = false -> split1 sep s = [s].
Proof.
  induction s as [|a s IH]; simpl; [reflexivity |].
  destruct (Ascii.eqb a sep); [discriminate |].
  intros H. now rewrite (IH H).
Qed.

Lemma split_app_sep sep s t :
  contains sep s = false ->
  split sep (s +:+ String sep t) = s :: split sep t.
Proof.
  induction s as [|a s IH]; simpl.
  - now rewrite Ascii.eqb_refl.
  - destruct (Ascii.eqb a sep); [discriminate |].
    intros H. now rewrite (IH H).
Qed.

Lemma split1_app_sep sep s t :
  contains sep s = false ->
  split1 sep (s +:+ String sep t) = [s; t].
Proof.
  induction s as [|a s IH]; simpl.
  - now rewrite Ascii.eqb_refl.
  - destruct (Ascii.eqb a sep); [discriminate |].
    intros H. now rewrite (IH H).
Qed.

Lemma endswith_app_last s c : endswith (s +:+ String c EmptyString) c = true.
Proof.
  induction s as [|a s IH]; simpl; [apply Ascii.eqb_refl |].
  destruct (s +:+ String c EmptyString) eqn:E; [| exact IH].
  destruct s; discriminate.
Qed.

Lemma strip_ends_wrapped a s b :
  strip_ends (String a (s +:+ String b EmptyString)) = s.
Proof.
  unfold strip_ends. simpl. rewrite length_app. simpl.
  replace (String.length s + 1 - 1)%nat with (String.length s) by lia.
  apply take_app.
Qed.

Lemma startswith_no_char s c :
  contains c s = false -> startswith s (String c EmptyString) = false.
Proof.
  destruct s as [|a s]; simpl; [reflexivity |].
  destruct (Ascii.eqb a c); [discriminate | reflexivity].
Qed.

Lemma all_digits_get ds k c :
  all_digits ds = true -> String.get k ds = Some c -> isdigit c = true.
Proof.
  revert k. induction ds as [|a ds IH]; simpl; intros k Hd Hg; [discriminate |].
  apply andb_prop in Hd as [Ha Hds].
  destruct k as [|k]; [now inversion Hg; subst | eauto].
Qed.

Lemma get_Some_lt s k : (k < String.length s)%nat -> is_Some (String.get k s).
Proof.
  revert k. induction s as [|a s IH]; simpl; intros k Hk; [lia |].
  destruct k as [|k]; [eauto | apply IH; lia].
Qed.

End PyFacts.

(** ** Power suffixes *)

Section PowerSuffix.
Import Py PyFacts.

Lemma last_is_digit_app s ds :
  ds <> EmptyString -> all_digits ds = true -> last_is_digit (s +:+ ds) = true.
Proof.
  intros Hne Hd. unfold last_is_digit. rewrite length_app.
  assert (0 < String.length ds)%nat as Hlen by (destruct ds; simpl; [congruence | lia]).
  replace (String.length s + String.length ds - 1)%nat
    with (String.length s + (String.length ds - 1))%nat by lia.
  rewrite get_app_r.
  destruct (get_Some_lt ds (String.length ds - 1)) as [c Hc]; [lia |].
  rewrite Hc. eapply all_digits_get; eauto.
Qed.

Lemma scan_digits_app s ds k :
  all_digits ds = true -> (k <= String.length ds)%nat ->
  scan_digits (s +:+ ds) (String.length s + k) =
  scan_digits (s +:+ ds) (String.length s).
Proof.
  intros Hd. induction k as [|k IH]; intros Hk.
  - now rewrite Nat.add_0_r.
  - rewrite Nat.add_succ_r. simpl. rewrite get_app_r.
    destruct (get_Some_lt ds k) as [c Hc]; [lia |].
    rewrite Hc, (all_digits_get _ _ _ Hd Hc). apply IH. lia.
Qed.

Lemma scan_stops_nondigit s c ds :
  isdigit c = false -> scan_stops (s +:+ String c EmptyString) ds.
Proof.
  intros Hc. unfold scan_stops. rewrite length_app. simpl.
  rewrite Nat.add_1_r. simpl.
  replace (String.length s) with (String.length s + 0)%nat at 1 by lia.
  rewrite app_assoc_str, get_app_r. simpl. now rewrite Hc.
Qed.

Lemma power_suffix_app s ds :
  ds <> EmptyString -> all_digits ds = true -> scan_stops s ds ->
  power_suffix (s +:+ ds) = (s, int ds).
Proof.
  intros Hne Hd Hstop. unfold power_suffix.
  fold (last_is_digit (s +:+ ds)). rewrite last_is_digit_app by assumption.
  rewrite length_app, scan_digits_app by (assumption || lia).
  rewrite Hstop, take_app, drop_app. reflexivity.
Qed.

Lemma power_suffix_no_digit s : last_is_digit s = false -> power_suffix s = (s, 1).
Proof. unfold power_suffix, last_is_digit. now intros ->. Qed.

Lemma is_temperature_unit_inv u :
  is_temperature_unit u = true ->
  u = "K" \/ u = "degC" \/ u = "degF" \/ u = "degR".
Proof.
  unfold is_temperature_unit, TEMPERATURE_UNITS. intros H.
  apply bool_decide_eq_true_1 in H.
  rewrite !elem_of_union, !elem_of_singleton in H. tauto.
Qed.

Lemma temperature_scale_digit u : last_is_digit u = true -> temperature_scale u = None.
Proof.
  intros Hd. unfold temperature_scale.
  destruct (is_temperature_unit u) eqn:E; [| reflexivity].
  apply is_temperature_unit_inv in E as [-> | [-> | [-> | ->]]]; discriminate.
Qed.

(** A token [s ++ ds] with a non-empty symbol and a power suffix resolves
    the symbol and raises it to the power. *)
Lemma parse_simple_power self s ds :
  s <> EmptyString -> ds <> EmptyString -> all_digits ds = true ->
  scan_stops s ds ->
  _parse_simple_unit_with_dims self (s +:+ ds) =
    (base_factor ← _get_unit_factor self s;
     base_dims ← _get_unit_dimensions self s;
     f ← float_pow base_factor (int ds);
     Ok (f, dims_scale base_dims (int ds))).
Proof.
  intros Hs Hne Hd Hstop. unfold _parse_simple_unit_with_dims.
  assert (String.eqb (s +:+ ds) "" || String.eqb (s +:+ ds) "1" = false) as ->.
  { destruct s as [|a [|b s]]; [congruence | |]; destruct ds; try congruence;
      simpl; destruct (Ascii.eqb _ _); reflexivity. }
  rewrite temperature_scale_digit by now apply last_is_digit_app.
  now rewrite power_suffix_app.
Qed.

End PowerSuffix.

(** ** Temperature symbols in the resolver *)

Lemma degree_symbols_not_in_table sym :
  In sym ["degC"; "degF"; "degR"] ->
  unit_dict conv !! sym = None /\
  _get_unit_factor conv sym = Raise (UnknownUnit sym).
Proof.
  intros [<- | [<- | [<- | []]]]; split; vm_compute; reflexivity.
Qed.

Lemma degree_symbols_scan sym ds :
  In sym ["degC"; "degF"; "degR"] -> sym <> EmptyString /\ scan_stops sym ds.
Proof.
  intros [<- | [<- | [<- | []]]]; split; solve [discriminate | reflexivity].
Qed.

(** C10: a power suffix on one of [degC], [degF], [degR] makes the token
    unknown: the parse of [sym ++ digits] raises [UnknownUnit sym], although
    the bare symbol is accepted, because the symbol has no entry in the unit
    table; the token [K2] resolves, since [K] has an entry. *)
Theorem degree_symbol_with_power_is_unknown (sym ds : string) :
  In sym ["degC"; "degF"; "degR"] ->
  ds <> EmptyString ->
  all_digits ds = true ->
  _parse_simple_unit_with_dims conv (sym +:+ ds) = Raise (UnknownUnit sym)
  /\ succeeds (_parse_simple_unit_with_dims conv sym) = true
  /\ unit_dict conv !! sym = None
  /\ unit_dict conv !! "K" = Some 1%float
  /\ _parse_simple_unit_with_dims conv "K2" = Ok (1%float, {[ Theta := 2 ]}).
Proof.
  intros Hsym Hne Hd.
  destruct (degree_symbols_not_in_table sym Hsym) as [Hnone Hraise].
  destruct (degree_symbols_scan sym ds Hsym) as [Hs Hstop].
  split.
  { rewrite parse_simple_power by assumption.
    rewrite Hraise. apply bind_Raise. }
  split.
  { destruct Hsym as [<- | [<- | [<- | []]]]; vm_compute; reflexivity. }
  split; [exact Hnone |].
  split; vm_compute; reflexivity.
Qed.

Lemma degree_symbol_with_power_is_unknown_witness :
  _parse_simple_unit_with_dims conv "degF2" = Raise (UnknownUnit "degF")
  /\ succeeds (_parse_simple_unit_with_dims conv "degF") = true
  /\ unit_dict conv !! "degF" = None
  /\ unit_dict conv !! "K" = Some 1%float
  /\ _parse_simple_unit_with_dims conv "K2" = Ok (1%float, {[ Theta := 2 ]}).
Proof.
  apply (degree_symbol_with_power_is_unknown "degF" "2").
  - simpl. tauto.
  - discriminate.
  - reflexivity.
Defined.

(** ** Temperature conversion *)

Lemma temperature_symbols u :
  u ∈ TEMPERATURE_UNITS <-> exists t, symbol t = u.
Proof.
  unfold TEMPERATURE_UNITS. rewrite !elem_of_union, !elem_of_singleton. split.
  - intros [[[-> | ->] | ->] | ->];
      [exists Kelvin | exists Celsius | exists Fahrenheit | exists Rankine];
      reflexivity.
  - intros [[] <-]; simpl; tauto.
Qed.

Lemma is_temperature_unit_symbol t : is_temperature_unit (symbol t) = true.
Proof. destruct t; reflexivity. Qed.

(** C3: between two temperature symbols [convert] is the affine conversion
    through Kelvin, [fromKelvin (toKelvin v from) to]; in particular
    0 degC is 273.15 K and 32 degF is 0.0 degC. *)
Theorem convert_temperature_through_kelvin
    (self : converter) (v : float) (from to : temperature_symbol) :
  symbol from ∈ TEMPERATURE_UNITS
  /\ symbol to ∈ TEMPERATURE_UNITS
  /\ convert self v (symbol from) (symbol to)
     = Ok (spec_fromKelvin (spec_toKelvin v from) to)
  /\ convert self 0 "degC" "K" = Ok 273.15%float
  /\ convert self 32 "degF" "degC" = Ok 0%float.
Proof.
  split; [apply temperature_symbols; eauto |].
  split; [apply temperature_symbols; eauto |].
  split.
  - unfold convert. rewrite !is_temperature_unit_symbol. simpl.
    destruct from, to; reflexivity.
  - split; reflexivity.
Qed.

(** ** The generated table *)

(** C9: the table has no entry [kgmol], yet the token resolves through the
    prefix fallback as [k] + [gmol], and one kgmol is 1000 gmol. *)
Theorem kgmol_resolves_by_prefix_fallback :
  unit_dict conv !! "kgmol" = None
  /\ dimension_dict conv !! "kgmol" = None
  /\ _get_unit_factor conv "kgmol" = Ok 1000%float
  /\ _get_unit_dimensions conv "kgmol" = Ok {[ "N" := 1 ]}
  /\ convert conv 1 "kgmol" "gmol" = Ok 1000%float.
Proof. repeat split; vm_compute; reflexivity. Qed.

Lemma prefix_table_consistent :
  forallb (fun b => forallb (prefix_consistent b) PREFIXES) base_si_units = true.
Proof. vm_compute. reflexivity. Qed.

(** C8: for every prefixable symbol [b] and every prefix [p] with multiplier
    [m], one [p ++ b] is [m] times [b], within tolerance (a relative error
    of at most [1e-9]; the two floats even compare equal). *)
Theorem prefix_consistency (b p : string) (m : float) :
  In b base_si_units ->
  In (p, m) PREFIXES ->
  exists r, convert conv 1 (p +:+ b) b = Ok r
            /\ within_tolerance r m = true /\ PrimFloat.eqb r m = true.
Proof.
  intros Hb Hp.
  pose proof prefix_table_consistent as H.
  rewrite forallb_forall in H. specialize (H b Hb).
  rewrite forallb_forall in H. specialize (H (p, m) Hp).
  unfold prefix_consistent in H. simpl in H.
  destruct (convert conv 1 (p +:+ b) b) as [r|]; [| discriminate].
  apply andb_prop in H as [Htol Heq]. eauto.
Qed.

Lemma prefix_consistency_witness :
  exists r, convert conv 1 "kPa" "Pa" = Ok r
            /\ within_tolerance r 1e3 = true /\ PrimFloat.eqb r 1e3 = true.
Proof.
  apply (prefix_consistency "Pa" "k" 1e3); simpl; tauto.
Defined.

(** ** Dimensional compatibility *)

Lemma forallb_false_exists {A} (f : A -> bool) (l : list A) :
  forallb f l = false <-> exists x, In x l /\ f x = false.
Proof.
  induction l as [|a l IH]; simpl.
  - split; [discriminate | intros (x & [] & _)].
  - rewrite andb_false_iff, IH. split.
    + intros [Ha | (x & Hx & Hf)]; [exists a | exists x]; auto.
    + intros (x & [<- | Hx] & Hf); [left | right]; eauto.
Qed.

Lemma in_all_dims (a b : dims) dim :
  In dim (elements (dom a ∪ dom b)) <-> dim ∈ dom a ∪ dom b.
Proof. rewrite <- list_elem_of_In. apply elem_of_elements. Qed.

Lemma dims_get_outside (a b : dims) dim :
  dim ∉ dom a ∪ dom b -> dims_get a dim = 0 /\ dims_get b dim = 0.
Proof.
  rewrite not_elem_of_union, !not_elem_of_dom. unfold dims_get.
  now intros [-> ->].
Qed.

(** The check is the equality of the two vectors axis by axis, an absent
    axis counting as exponent 0. *)
Lemma check_compatible_iff (a b : dims) :
  _check_dimensional_compatibility a b = true <->
  forall dim, dims_get a dim = dims_get b dim.
Proof.
  unfold _check_dimensional_compatibility. rewrite forallb_forall. split.
  - intros H dim. destruct (decide (dim ∈ dom a ∪ dom b)) as [Hin | Hout].
    + apply Z.eqb_eq, H, in_all_dims, Hin.
    + destruct (dims_get_outside a b dim Hout) as [-> ->]. reflexivity.
  - intros H dim _. apply Z.eqb_eq, H.
Qed.

Lemma check_incompatible_iff (a b : dims) :
  _check_dimensional_compatibility a b = false <->
  exists dim, dim ∈ dom a ∪ dom b /\ dims_get a dim <> dims_get b dim.
Proof.
  unfold _check_dimensional_compatibility. rewrite forallb_false_exists.
  split; intros (dim & Hin & Hne); exists dim;
    (split; [now apply in_all_dims |]).
  - now apply Z.eqb_neq.
  - now apply Z.eqb_neq.
Qed.

(** ** The multiplicative path of [convert] *)

Section Convert.

Variable self : converter.
Variables (v : float) (from_unit to_unit : string).
Variables (from_factor to_factor : float) (from_dims to_dims : dims).

Hypothesis not_both_temperature :
  is_temperature_unit from_unit && is_temperature_unit to_unit = false.
Hypothesis parse_from :
  _parse_unit_expression_with_dims self from_unit = Ok (from_factor, from_dims).
Hypothesis parse_to :
  _parse_unit_expression_with_dims self to_unit = Ok (to_factor, to_dims).

(** What [convert] does once both expressions are parsed. *)
Lemma convert_parsed :
  convert self v from_unit to_unit =
  if negb (_check_dimensional_compatibility from_dims to_dims) then
    Raise (IncompatibleDimensions from_unit from_dims to_unit to_dims)
  else q ← float_div from_factor to_factor; Ok (v * q)%float.
Proof.
  unfold convert.
  rewrite not_both_temperature, parse_from, parse_to. reflexivity.
Qed.

Lemma convert_compatible :
  (forall dim, dims_get from_dims dim = dims_get to_dims dim) ->
  convert self v from_unit to_unit =
    (q ← float_div from_factor to_factor; Ok (v * q)%float).
Proof.
  intros H. apply check_compatible_iff in H.
  rewrite convert_parsed, H. reflexivity.
Qed.

End Convert.

(** C1, amended: when neither both units are temperature symbols, both
    expressions parse, the two dimension vectors agree on every axis and
    the factor of the target is not zero, [convert] returns
    [v * (fromFactor / toFactor)]. *)
Theorem convert_scales_by_factor_ratio
    (self : converter) (v : float) (from_unit to_unit : string)
    (from_factor to_factor : float) (from_dims to_dims : dims) :
  is_temperature_unit from_unit && is_temperature_unit to_unit = false ->
  _parse_unit_expression_with_dims self from_unit = Ok (from_factor, from_dims) ->
  _parse_unit_expression_with_dims self to_unit = Ok (to_factor, to_dims) ->
  (forall dim, dims_get from_dims dim = dims_get to_dims dim) ->
  PrimFloat.eqb to_factor 0 = false ->
  convert self v from_unit to_unit = Ok (v * (from_factor / to_factor))%float.
Proof.
  intros Htemp Hfrom Hto Hdims Hnz.
  rewrite (convert_compatible self v _ _ _ _ _ _ Htemp Hfrom Hto Hdims).
  unfold float_div. rewrite Hnz. reflexivity.
Qed.

Lemma convert_scales_by_factor_ratio_witness :
  convert conv 100 "cm" "m" = Ok (100 * (0.01 / 1))%float.
Proof.
  apply (convert_scales_by_factor_ratio conv 100 "cm" "m" 0.01 1
           {[ "L" := 1 ]} {[ "L" := 1 ]}).
  - reflexivity.
  - vm_compute. reflexivity.
  - vm_compute. reflexivity.
  - reflexivity.
  - reflexivity.
Defined.

(** C1 as stated fails: [ym14] parses, to the factor 0.0, and is
    dimensionally equal to itself, yet the conversion raises
    [ZeroDivisionError]. *)
Lemma convert_raises_on_zero_target_factor :
  is_temperature_unit ym14 && is_temperature_unit ym14 = false
  /\ _parse_unit_expression_with_dims conv ym14 = Ok (0%float, {[ "L" := 14 ]})
  /\ _check_dimensional_compatibility {[ "L" := 14 ]} {[ "L" := 14 ]} = true
  /\ convert conv 1 ym14 ym14 = Raise ZeroDivisionError.
Proof. repeat split; vm_compute; reflexivity. Qed.

(** C2: once both expressions parse (and are not both temperature symbols),
    [convert] raises [IncompatibleDimensions], carrying the two unit strings
    and the two resolved vectors, exactly when the vectors differ on some
    axis present in either of them, an absent axis counting as 0. *)
Theorem convert_incompatible_iff
    (self : converter) (v : float) (from_unit to_unit : string)
    (from_factor to_factor : float) (from_dims to_dims : dims) :
  is_temperature_unit from_unit && is_temperature_unit to_unit = false ->
  _parse_unit_expression_with_dims self from_unit = Ok (from_factor, from_dims) ->
  _parse_unit_expression_with_dims self to_unit = Ok (to_factor, to_dims) ->
  (convert self v from_unit to_unit
     = Raise (IncompatibleDimensions from_unit from_dims to_unit to_dims)
   <-> exists dim, dim ∈ dom from_dims ∪ dom to_dims
                   /\ dims_get from_dims dim <> dims_get to_dims dim)
  /\ (forall u1 d1 u2 d2,
        convert self v from_unit to_unit
          = Raise (IncompatibleDimensions u1 d1 u2 d2) ->
        u1 = from_unit /\ d1 = from_dims /\ u2 = to_unit /\ d2 = to_dims).
Proof.
  intros Htemp Hfrom Hto.
  rewrite (convert_parsed self v _ _ _ _ _ _ Htemp Hfrom Hto).
  rewrite <- check_incompatible_iff.
  destruct (_check_dimensional_compatibility from_dims to_dims); simpl.
  - unfold float_div. destruct (PrimFloat.eqb to_factor 0); simpl.
    + split; [split; discriminate | discriminate].
    + split; [split; discriminate | discriminate].
  - split; [tauto |]. intros u1 d1 u2 d2 [= -> -> -> ->]. tauto.
Qed.

Lemma convert_incompatible_iff_witness :
  convert conv 1 "J" "W"
  = Raise (IncompatibleDimensions
             "J" {[ "M" := 1; "L" := 2; "T" := -2 ]}
             "W" {[ "M" := 1; "L" := 2; "T" := -3 ]}).
Proof.
  apply (convert_incompatible_iff conv 1 "J" "W" 1 1).
  - reflexivity.
  - vm_compute. reflexivity.
  - vm_compute. reflexivity.
  - exists "T". split; [| discriminate].
    apply elem_of_union_l, elem_of_dom. vm_compute. eauto.
Defined.

(** ** Dimension arithmetic *)

Lemma dims_add_lookup (acc d : dims) dim :
  dims_add acc d !! dim =
  match d !! dim with
  | Some e => Some (dims_get acc dim + e)
  | None => acc !! dim
  end.
Proof.
  revert dim. unfold dims_add.
  apply (map_fold_weak_ind
    (fun (r : dims) (m : dims) => forall dim,
       r !! dim = match m !! dim with
                  | Some e => Some (dims_get acc dim + e)
                  | None => acc !! dim
                  end)).
  - intros dim. now rewrite lookup_empty.
  - intros i x m r Hi IH dim. destruct (decide (i = dim)) as [<- | Hne].
    + rewrite !lookup_insert_eq. unfold dims_get at 1.
      now rewrite IH, Hi.
    + rewrite !lookup_insert_ne by assumption. apply IH.
Qed.

Lemma dims_sub_lookup (acc d : dims) dim :
  dims_sub acc d !! dim =
  match d !! dim with
  | Some e => Some (dims_get acc dim - e)
  | None => acc !! dim
  end.
Proof.
  revert dim. unfold dims_sub.
  apply (map_fold_weak_ind
    (fun (r : dims) (m : dims) => forall dim,
       r !! dim = match m !! dim with
                  | Some e => Some (dims_get acc dim - e)
                  | None => acc !! dim
                  end)).
  - intros dim. now rewrite lookup_empty.
  - intros i x m r Hi IH dim. destruct (decide (i = dim)) as [<- | Hne].
    + rewrite !lookup_insert_eq. unfold dims_get at 1.
      now rewrite IH, Hi.
    + rewrite !lookup_insert_ne by assumption. apply IH.
Qed.

(** Multiplying two quantities adds their exponents axis by axis. *)
Lemma dims_get_add (acc d : dims) dim :
  dims_get (dims_add acc d) dim = dims_get acc dim + dims_get d dim.
Proof.
  unfold dims_get at 1 3. rewrite dims_add_lookup.
  destruct (d !! dim); simpl; [reflexivity | unfold dims_get; lia].
Qed.

(** Dividing subtracts them. *)
Lemma dims_get_sub (acc d : dims) dim :
  dims_get (dims_sub acc d) dim = dims_get acc dim - dims_get d dim.
Proof.
  unfold dims_get at 1 3. rewrite dims_sub_lookup.
  destruct (d !! dim); simpl; [reflexivity | unfold dims_get; lia].
Qed.

(** A power multiplies them. *)
Lemma dims_get_scale (d : dims) power dim :
  dims_get (dims_scale d power) dim = dims_get d dim * power.
Proof.
  unfold dims_get, dims_scale. rewrite lookup_fmap.
  destruct (d !! dim); reflexivity.
Qed.

(** ** Temperature symbols as tokens of a compound expression *)

Lemma parse_simple_temperature self t :
  _parse_simple_unit_with_dims self (symbol t)
  = Ok (scale_factor t, {[ Theta := 1 ]}).
Proof. destruct t; reflexivity. Qed.

(** A specific heat, in British and in SI units. *)
Lemma parse_btu_per_lb_degF :
  _parse_unit_expression_with_dims conv "Btu/(lb.degF)"
  = Ok ((1055.06 / (0.453592 * (5 / 9)))%float,
        dims_sub {[ "M" := 1; "L" := 2; "T" := -2 ]}
                 {[ "M" := 1; Theta := 1 ]}).
Proof. vm_compute. reflexivity. Qed.

Lemma parse_joule_per_kg_K :
  _parse_unit_expression_with_dims conv "J/(kg.K)"
  = Ok (1%float,
        dims_sub {[ "M" := 1; "L" := 2; "T" := -2 ]}
                 {[ "M" := 1; Theta := 1 ]}).
Proof. vm_compute. reflexivity. Qed.

(** C6: a temperature symbol used as a token resolves to the dimension
    vector [{Theta: 1}] and a scale, 1.0 for [K] and [degC], 5/9 for [degF]
    and [degR]; in a group it multiplies the factor of the group by that
    scale and adds one to the temperature exponent, and a conversion
    through such a group is a multiplication of the value (no offset). *)
Theorem temperature_token_is_multiplicative
    (self : converter) (t : temperature_symbol)
    (rest : list string) (f : float) (d : dims) :
  _parse_simple_unit_with_dims self (symbol t)
    = Ok (scale_factor t, {[ Theta := 1 ]})
  /\ scale_factor Kelvin = 1%float
  /\ scale_factor Celsius = 1%float
  /\ scale_factor Fahrenheit = (5 / 9)%float
  /\ scale_factor Rankine = (5 / 9)%float
  /\ parse_subparts self (symbol t :: rest) f d
     = parse_subparts self rest (f * scale_factor t)%float
                      (dims_add d {[ Theta := 1 ]})
  /\ parse_parts self (symbol t :: rest) f d
     = parse_parts self rest (f * scale_factor t)%float
                   (dims_add d {[ Theta := 1 ]})
  /\ (forall dim,
        dims_get (dims_add d {[ Theta := 1 ]}) dim
        = dims_get d dim + (if decide (dim = Theta) then 1 else 0))
  /\ (forall v,
        convert conv v "Btu/(lb.degF)" "J/(kg.K)"
        = Ok (v * (1055.06 / (0.453592 * (5 / 9)) / 1))%float).
Proof.
  split; [apply parse_simple_temperature |].
  do 4 (split; [reflexivity |]).
  split.
  { simpl. rewrite parse_simple_temperature. reflexivity. }
  split.
  { simpl. assert (Py.contains "." (symbol t) = false) as ->
      by (destruct t; reflexivity).
    rewrite parse_simple_temperature. reflexivity. }
  split.
  { intros dim. rewrite dims_get_add. f_equal. unfold dims_get.
    destruct (decide (dim = Theta)) as [-> | Hne].
    - now rewrite lookup_singleton_eq.
    - now rewrite lookup_singleton_ne. }
  intros v.
  rewrite (convert_compatible conv v "Btu/(lb.degF)" "J/(kg.K)" _ _ _ _
             eq_refl parse_btu_per_lb_degF parse_joule_per_kg_K);
    [reflexivity | reflexivity].
Qed.

(** ** Splitting an expression at its slashes *)

Section Split.
Import Py PyFacts.

Lemma split_two sep s :
  contains sep s = true -> exists p q r, split sep s = p :: q :: r.
Proof.
  induction s as [|a s IH]; simpl; [discriminate |].
  destruct (Ascii.eqb a sep).
  - intros _. destruct (split sep s) as [|q r] eqn:E.
    + now apply split_nonempty in E.
    + eauto.
  - intros H. destruct (IH H) as (p & q & r & ->). eauto.
Qed.

Lemma split_one_no_sep sep s p : split sep s = [p] -> contains sep s = false.
Proof.
  intros H. destruct (contains sep s) eqn:E; [| reflexivity].
  destruct (split_two sep s E) as (p' & q & r & H'). congruence.
Qed.

Lemma startswith_empty s : startswith s EmptyString = true.
Proof. now destruct s. Qed.

Lemma remove_wrap b g : remove " " (wrap b g) = wrap b (remove " " g).
Proof.
  destruct b; [| reflexivity]. unfold wrap.
  cbn. now rewrite remove_app.
Qed.

Lemma paren_free_remove g : paren_free g -> paren_free (remove " " g).
Proof. intros [H1 H2]. split; now rewrite contains_remove. Qed.

Lemma slash_free_remove g : slash_free g -> slash_free (remove " " g).
Proof. unfold slash_free. intros H. now rewrite contains_remove. Qed.

Lemma slash_free_wrap b g : slash_free g -> slash_free (wrap b g).
Proof.
  unfold slash_free. destruct b; [| trivial]. unfold wrap. cbn.
  intros H. now rewrite contains_app, H.
Qed.

Lemma contains_open_wrap b g :
  paren_free g -> contains "(" (wrap b g) = b.
Proof.
  intros [H1 H2]. destruct b; [reflexivity | exact H1].
Qed.

Lemma contains_close_wrap b g :
  paren_free g -> contains ")" (wrap b g) = b.
Proof.
  intros [H1 H2]. destruct b; [| exact H2]. unfold wrap. cbn.
  rewrite contains_app. cbn. apply orb_true_r.
Qed.

Lemma strip_parens_wrap b g : paren_free g -> strip_parens (wrap b g) = g.
Proof.
  intros [H1 H2]. unfold strip_parens. destruct b; unfold wrap.
  - rewrite <- app_cons, endswith_app_last, app_cons.
    cbn [startswith Ascii.eqb Bool.eqb]. rewrite startswith_empty.
    apply strip_ends_wrapped.
  - now rewrite startswith_no_char.
Qed.

(** Without a pair of parentheses every part after the first is a
    denominator part. *)
Lemma split_unit_expression_bare expr num dens :
  contains "(" (remove " " expr) && contains ")" (remove " " expr) = false ->
  split "/" (remove " " expr) = num :: dens ->
  dens <> [] ->
  _split_unit_expression expr = Ok (Parts [num] dens).
Proof.
  intros Hparen Hsplit Hdens. unfold _split_unit_expression.
  destruct (contains "/" (remove " " expr)) eqn:Hslash.
  - simpl. rewrite Hparen, Hsplit. simpl.
    destruct dens as [|q r]; [congruence | reflexivity].
  - rewrite (split_no_sep _ _ Hslash) in Hsplit. congruence.
Qed.

(** Around the slash, one pair of parentheses is stripped from either
    group. *)
Lemma split_unit_expression_wrapped bn bd n d :
  paren_free n -> paren_free d -> slash_free n -> slash_free d ->
  _split_unit_expression (wrap bn n +:+ "/" +:+ wrap bd d)
  = Ok (Parts [remove " " n] [remove " " d]).
Proof.
  intros Hpn Hpd Hsn Hsd.
  apply paren_free_remove in Hpn, Hpd. apply slash_free_remove in Hsn, Hsd.
  change (wrap bn n +:+ "/" +:+ wrap bd d)
    with (wrap bn n +:+ String "/" (wrap bd d)).
  unfold _split_unit_expression.
  rewrite remove_app. cbn [remove Ascii.eqb Bool.eqb]. rewrite !remove_wrap.
  set (n' := remove " " n) in *. set (d' := remove " " d) in *.
  rewrite !contains_app. simpl contains.
  rewrite (slash_free_wrap bn n' Hsn), !contains_open_wrap,
    !contains_close_wrap by assumption.
  simpl negb. cbv iota.
  destruct (bn || bd) eqn:Hb.
  - simpl andb. cbv iota.
    rewrite split1_app_sep by now apply slash_free_wrap.
    simpl. now rewrite !strip_parens_wrap.
  - apply orb_false_elim in Hb as [-> ->]. simpl.
    rewrite split_app_sep, split_no_sep by assumption. reflexivity.
Qed.

End Split.

(** ** Compound expressions *)

Section Compound.
Import Py PyFacts.

Variable self : converter.

Lemma compound_guard expr :
  contains "/" expr = true ->
  String.eqb expr "" || String.eqb expr "1"
    || String.eqb expr "dimensionless" = false
  /\ negb (contains "/" expr) && negb (contains "." expr) = false.
Proof.
  intros H. split; [| now rewrite H].
  destruct (String.eqb_spec expr "") as [-> | _]; [discriminate |].
  destruct (String.eqb_spec expr "1") as [-> | _]; [discriminate |].
  destruct (String.eqb_spec expr "dimensionless") as [-> | _];
    [discriminate | reflexivity].
Qed.

(** Two expressions with a slash that split alike parse alike. *)
Lemma parse_compound_eq e1 e2 :
  contains "/" e1 = true -> contains "/" e2 = true ->
  _split_unit_expression e1 = _split_unit_expression e2 ->
  _parse_unit_expression_with_dims self e1
  = _parse_unit_expression_with_dims self e2.
Proof.
  intros H1 H2 Hsplit. unfold _parse_unit_expression_with_dims.
  destruct (compound_guard e1 H1) as [-> ->].
  destruct (compound_guard e2 H2) as [-> ->].
  now rewrite Hsplit.
Qed.

Lemma parse_compound_value expr ps nf nd df dd :
  contains "/" expr = true ->
  _split_unit_expression expr = Ok ps ->
  parse_parts self (numerator ps) 1 ∅ = Ok (nf, nd) ->
  parse_parts self (denominator ps) 1 ∅ = Ok (df, dd) ->
  _parse_unit_expression_with_dims self expr
  = (f ← float_div nf df; Ok (f, dims_sub nd dd)).
Proof.
  intros H Hsplit Hnum Hden. unfold _parse_unit_expression_with_dims.
  destruct (compound_guard expr H) as [-> ->].
  rewrite Hsplit, bind_Ok, Hnum, bind_Ok, Hden. reflexivity.
Qed.

Lemma contains_slash_wrapped bn bd n d :
  contains "/" (wrap bn n +:+ "/" +:+ wrap bd d) = true.
Proof.
  change (wrap bn n +:+ "/" +:+ wrap bd d)
    with (wrap bn n +:+ String "/" (wrap bd d)).
  rewrite contains_app. cbn. apply orb_true_r.
Qed.

End Compound.

(** C7 as stated fails: a bare parenthesized group without a slash keeps its
    parentheses, and its first token is unknown. *)
Lemma bare_parenthesized_group_is_not_stripped :
  _parse_unit_expression_with_dims conv "(m2.K)" = Raise (UnknownUnit "(m")
  /\ _parse_unit_expression_with_dims conv "m2.K"
     = Ok (1%float, {[ "L" := 2; Theta := 1 ]}).
Proof. split; vm_compute; reflexivity. Qed.

(** Without a slash the expression is its own and only numerator part,
    parentheses included. *)
Lemma split_unit_expression_no_slash expr :
  slash_free expr ->
  _split_unit_expression expr = Ok (Parts [Py.remove " " expr] ["1"]).
Proof.
  intros H. apply slash_free_remove in H. unfold _split_unit_expression.
  now rewrite H.
Qed.

(** C7, amended: beside the slash of an expression, a group wrapped in one
    pair of parentheses is stripped of it before it is tokenized, so the
    expression parses as the one without these parentheses does; a group
    that is the whole expression, without a slash, keeps its parentheses. *)
Theorem parentheses_beside_slash_are_stripped
    (self : converter) (bn bd : bool) (n d : string) :
  paren_free n -> paren_free d -> slash_free n -> slash_free d ->
  _parse_unit_expression_with_dims self (wrap bn n +:+ "/" +:+ wrap bd d)
  = _parse_unit_expression_with_dims self (n +:+ "/" +:+ d)
  /\ _split_unit_expression (wrap bn n +:+ "/" +:+ wrap bd d)
     = Ok (Parts [Py.remove " " n] [Py.remove " " d])
  /\ _split_unit_expression (wrap true n)
     = Ok (Parts [wrap true (Py.remove " " n)] ["1"]).
Proof.
  intros Hpn Hpd Hsn Hsd. split; [| split].
  - apply parse_compound_eq.
    + apply contains_slash_wrapped.
    + apply (contains_slash_wrapped false false).
    + rewrite split_unit_expression_wrapped by assumption.
      symmetry. now apply (split_unit_expression_wrapped false false).
  - now apply split_unit_expression_wrapped.
  - rewrite split_unit_expression_no_slash by now apply slash_free_wrap.
    now rewrite remove_wrap.
Qed.

Lemma parentheses_beside_slash_are_stripped_witness :
  _parse_unit_expression_with_dims conv "W/(m2.K)"
  = _parse_unit_expression_with_dims conv "W/m2.K"
  /\ _split_unit_expression "W/(m2.K)" = Ok (Parts ["W"] ["m2.K"])
  /\ _split_unit_expression "(W)" = Ok (Parts ["(W)"] ["1"]).
Proof.
  apply (parentheses_beside_slash_are_stripped conv false true "W" "m2.K");
    solve [split; reflexivity | reflexivity].
Defined.

(** C4 as stated fails: an expression with two slashes parses. *)
Lemma two_slashes_parse :
  Py.split "/" "kg/m/s" = ["kg"; "m"; "s"]
  /\ _parse_unit_expression_with_dims conv "kg/m/s"
     = Ok (1%float, {[ "M" := 1; "L" := -1; "T" := -1 ]}).
Proof. split; vm_compute; reflexivity. Qed.

(** C4, amended: in an expression without a pair of parentheses every part
    after the first slash is a denominator part; when the parts resolve and
    the denominator factor is not zero the expression parses, to the
    quotient of the factors and the difference of the dimensions. *)
Theorem parts_after_first_slash_are_denominators
    (self : converter) (expr num : string) (dens : list string)
    (nf df : float) (nd dd : dims) :
  Py.contains "(" (Py.remove " " expr)
    && Py.contains ")" (Py.remove " " expr) = false ->
  Py.split "/" (Py.remove " " expr) = num :: dens ->
  dens <> [] ->
  parse_parts self [num] 1 ∅ = Ok (nf, nd) ->
  parse_parts self dens 1 ∅ = Ok (df, dd) ->
  PrimFloat.eqb df 0 = false ->
  _split_unit_expression expr = Ok (Parts [num] dens)
  /\ _parse_unit_expression_with_dims self expr
     = Ok ((nf / df)%float, dims_sub nd dd).
Proof.
  intros Hparen Hsplit Hdens Hnum Hden Hnz.
  pose proof (split_unit_expression_bare expr num dens Hparen Hsplit Hdens)
    as Hparts.
  split; [exact Hparts |].
  assert (Py.contains "/" expr = true) as Hslash.
  { rewrite <- (PyFacts.contains_remove "/" " ") by discriminate.
    destruct (Py.contains "/" (Py.remove " " expr)) eqn:E; [reflexivity |].
    rewrite (PyFacts.split_no_sep _ _ E) in Hsplit. congruence. }
  rewrite (parse_compound_value self expr _ nf nd df dd Hslash Hparts Hnum Hden).
  unfold float_div. rewrite Hnz. reflexivity.
Qed.

Lemma parts_after_first_slash_are_denominators_witness :
  _split_unit_expression "kg/m/s" = Ok (Parts ["kg"] ["m"; "s"])
  /\ _parse_unit_expression_with_dims conv "kg/m/s"
     = Ok ((1 / 1)%float,
           dims_sub {[ "M" := 1 ]} (dims_add {[ "L" := 1 ]} {[ "T" := 1 ]})).
Proof.
  apply (parts_after_first_slash_are_denominators conv "kg/m/s" "kg" ["m"; "s"]).
  - reflexivity.
  - reflexivity.
  - discriminate.
  - vm_compute. reflexivity.
  - vm_compute. reflexivity.
  - reflexivity.
Defined.

(** ** Tokens and the first error *)

Section FirstError.

Variable self : converter.

Lemma first_error_app l1 l2 :
  first_error self (l1 ++ l2) =
  match first_error self l1 with
  | Some e => Some e
  | None => first_error self l2
  end.
Proof.
  induction l1 as [|t l1 IH]; simpl; [reflexivity |].
  destruct (_parse_simple_unit_with_dims self t); [exact IH | reflexivity].
Qed.

Lemma first_error_at pre t post e :
  Forall (fun s => succeeds (_parse_simple_unit_with_dims self s) = true) pre ->
  _parse_simple_unit_with_dims self t = Raise e ->
  first_error self (pre ++ t :: post) = Some e.
Proof.
  intros Hpre Ht. induction Hpre as [|s pre Hs _ IH]; simpl.
  - now rewrite Ht.
  - destruct (_parse_simple_unit_with_dims self s); [exact IH | discriminate].
Qed.

Lemma first_error_in t ts e :
  In t ts -> _parse_simple_unit_with_dims self t = Raise e ->
  exists e', first_error self ts = Some e'.
Proof.
  intros Hin Ht. induction ts as [|s ts IH]; [destruct Hin |]. simpl.
  destruct Hin as [-> | Hin].
  - rewrite Ht. eauto.
  - destruct (_parse_simple_unit_with_dims self s); eauto.
Qed.

Lemma parse_subparts_first_error ts f d :
  match first_error self ts with
  | Some e => parse_subparts self ts f d = Raise e
  | None => exists r, parse_subparts self ts f d = Ok r
  end.
Proof.
  revert f d. induction ts as [|t ts IH]; intros f d; simpl; [eauto |].
  destruct (_parse_simple_unit_with_dims self t) as [[tf td] |];
    [apply IH | reflexivity].
Qed.

Lemma parse_parts_first_error ps f d :
  match first_error self (side_tokens ps) with
  | Some e => parse_parts self ps f d = Raise e
  | None => exists r, parse_parts self ps f d = Ok r
  end.
Proof.
  revert f d. induction ps as [|part ps IH]; intros f d; simpl; [eauto |].
  rewrite first_error_app. unfold group_tokens.
  destruct (Py.contains "." part).
  - pose proof (parse_subparts_first_error (Py.split "." part) 1 ∅) as H.
    destruct (first_error self (Py.split "." part)).
    + now rewrite H.
    + destruct H as [[sf sd] ->]. apply IH.
  - simpl.
    destruct (_parse_simple_unit_with_dims self part) as [[tf td] |];
      [apply IH | reflexivity].
Qed.

(** The parse of an expression raises what its first failing token
    raises. *)
Lemma parse_expression_first_error expr e :
  first_error self (expression_tokens expr) = Some e ->
  _parse_unit_expression_with_dims self expr = Raise e.
Proof.
  unfold expression_tokens, _parse_unit_expression_with_dims.
  destruct (String.eqb expr "" || String.eqb expr "1"
            || String.eqb expr "dimensionless"); [discriminate |].
  destruct (negb (Py.contains "/" expr) && negb (Py.contains "." expr)).
  - simpl. destruct (_parse_simple_unit_with_dims self expr); congruence.
  - destruct (_split_unit_expression expr) as [ps |]; [| discriminate].
    rewrite first_error_app, bind_Ok.
    pose proof (parse_parts_first_error (numerator ps) 1 ∅) as Hn.
    pose proof (parse_parts_first_error (denominator ps) 1 ∅) as Hd.
    destruct (first_error self (side_tokens (numerator ps))).
    + intros [= <-]. now rewrite Hn.
    + destruct Hn as [[nf nd] ->]. intros He. rewrite He in Hd.
      now rewrite bind_Ok, Hd.
Qed.

Lemma convert_first_error v from_unit to_unit e :
  is_temperature_unit from_unit && is_temperature_unit to_unit = false ->
  first_error self (expression_tokens from_unit) = Some e
  \/ (succeeds (_parse_unit_expression_with_dims self from_unit) = true
      /\ first_error self (expression_tokens to_unit) = Some e) ->
  convert self v from_unit to_unit = Raise e.
Proof.
  intros Htemp H. unfold convert. rewrite Htemp.
  destruct H as [Hfrom | [Hfrom Hto]].
  - now rewrite (parse_expression_first_error _ _ Hfrom).
  - apply succeeds_Ok in Hfrom as [[ff fd] ->].
    now rewrite bind_Ok, (parse_expression_first_error _ _ Hto).
Qed.

Lemma get_unit_factor_unresolvable unit :
  table_resolvable self unit = false -> unit <> "kg" ->
  _get_unit_factor self unit = Raise (UnknownUnit unit).
Proof.
  unfold table_resolvable, _get_unit_factor. intros H Hkg.
  apply orb_false_elim in H as [Hdirect Hprefix].
  apply bool_decide_eq_false_1 in Hdirect.
  destruct (unit_dict self !! unit) as [f |] eqn:E;
    [exfalso; apply Hdirect; eauto |].
  assert (factor_by_prefix self unit PREFIXES = None) as ->.
  { clear -Hprefix. induction PREFIXES as [|[p pf] l IH]; [reflexivity |].
    simpl in *. apply orb_false_elim in Hprefix as [Hp Hl].
    destruct (Py.startswith unit p); [| exact (IH Hl)].
    simpl in Hp. apply bool_decide_eq_false_1 in Hp.
    destruct (unit_dict self !! Py.drop (String.length p) unit);
      [exfalso; apply Hp; eauto | exact (IH Hl)]. }
  apply String.eqb_neq in Hkg. now rewrite Hkg.
Qed.

Lemma temperature_scale_other t :
  is_temperature_unit t = false -> temperature_scale t = None.
Proof. unfold temperature_scale. now intros ->. Qed.

Lemma parse_simple_unresolved t :
  token_unresolved self t = true ->
  fst (power_suffix t) <> "kg" ->
  _parse_simple_unit_with_dims self t
  = Raise (UnknownUnit (fst (power_suffix t))).
Proof.
  unfold token_unresolved. intros H Hkg.
  apply andb_prop in H as [H Hres]. apply andb_prop in H as [Hspecial Htemp].
  apply negb_true_iff in Hspecial, Htemp, Hres.
  unfold _parse_simple_unit_with_dims.
  rewrite Hspecial, (temperature_scale_other _ Htemp).
  destruct (power_suffix t) as [base_unit power]. simpl in *.
  now rewrite (get_unit_factor_unresolvable _ Hres Hkg).
Qed.

End FirstError.

Lemma table_has_kg unit :
  table_resolvable conv unit = false -> unit <> "kg".
Proof. intros H ->. vm_compute in H. discriminate. Qed.

(** No conversion returns a value when one of its tokens is unresolved. *)
Lemma unresolved_token_never_converts
    (v : float) (from_unit to_unit t : string) :
  is_temperature_unit from_unit && is_temperature_unit to_unit = false ->
  token_unresolved conv t = true ->
  In t (expression_tokens from_unit ++ expression_tokens to_unit) ->
  succeeds (convert conv v from_unit to_unit) = false.
Proof.
  intros Htemp Ht Hin.
  assert (fst (power_suffix t) <> "kg") as Hkg.
  { apply table_has_kg. unfold token_unresolved in Ht.
    apply andb_prop in Ht as [_ Ht]. now apply negb_true_iff in Ht. }
  pose proof (parse_simple_unresolved conv t Ht Hkg) as Hraise.
  unfold convert. rewrite Htemp.
  destruct (_parse_unit_expression_with_dims conv from_unit)
    as [[ff fd] |] eqn:Hfrom; [| reflexivity].
  rewrite bind_Ok.
  apply in_app_or in Hin as [Hin | Hin].
  - destruct (first_error_in conv t _ _ Hin Hraise) as [e He].
    rewrite (parse_expression_first_error conv _ _ He) in Hfrom. discriminate.
  - destruct (first_error_in conv t _ _ Hin Hraise) as [e He].
    now rewrite (parse_expression_first_error conv _ _ He).
Qed.

(** C5, amended: when the two units are ASCII strings, not both temperature
    symbols, and a token is unresolved (it is not empty, not ["1"], not a
    temperature symbol, and without its power suffix it is in no table
    entry, directly or after stripping a prefix), a conversion with this
    token in either expression returns no value; and when every token
    before it resolves and, for a token of the target, the source expression
    parses, [convert] raises [UnknownUnit] carrying the token without its
    power suffix. *)
Theorem unresolved_token_raises_unknown_unit
    (v : float) (from_unit to_unit : string) (t : string) :
  is_ascii from_unit = true ->
  is_ascii to_unit = true ->
  is_temperature_unit from_unit && is_temperature_unit to_unit = false ->
  token_unresolved conv t = true ->
  (In t (expression_tokens from_unit ++ expression_tokens to_unit) ->
   succeeds (convert conv v from_unit to_unit) = false)
  /\ (forall pre post : list string,
        Forall (fun s => succeeds (_parse_simple_unit_with_dims conv s) = true)
               pre ->
        expression_tokens from_unit = pre ++ t :: post
        \/ (succeeds (_parse_unit_expression_with_dims conv from_unit) = true
            /\ expression_tokens to_unit = pre ++ t :: post) ->
        convert conv v from_unit to_unit
        = Raise (UnknownUnit (fst (power_suffix t)))).
Proof.
  intros _ _ Htemp Ht. split; [now apply unresolved_token_never_converts |].
  intros pre post Hpre Htokens.
  assert (fst (power_suffix t) <> "kg") as Hkg.
  { apply table_has_kg. unfold token_unresolved in Ht.
    apply andb_prop in Ht as [_ Ht]. now apply negb_true_iff in Ht. }
  pose proof (parse_simple_unresolved conv t Ht Hkg) as Hraise.
  pose proof (first_error_at conv pre t post _ Hpre Hraise) as Hfirst.
  apply convert_first_error; [exact Htemp |].
  destruct Htokens as [-> | [Hfrom ->]]; [left | right]; auto.
Qed.

Lemma unresolved_token_raises_unknown_unit_witness :
  succeeds (convert conv 1 "xyz" "m") = false
  /\ convert conv 1 "xyz" "m" = Raise (UnknownUnit "xyz").
Proof.
  destruct (unresolved_token_raises_unknown_unit 1 "xyz" "m" "xyz")
    as [Hfails Hraises].
  - reflexivity.
  - reflexivity.
  - reflexivity.
  - vm_compute. reflexivity.
  - split.
    + apply Hfails. left. reflexivity.
    + apply (Hraises [] []); [constructor | left; reflexivity].
Defined.

(** C5 as stated fails. The token [xyz] is in no table entry, yet the
    conversion raises [ZeroDivisionError]: the source expression divides by
    a factor that underflowed to zero before the target is looked at. And
    [degF] is in no table entry either, directly or after stripping a
    prefix, yet a conversion with this token returns a value. *)
Lemma unknown_unit_is_not_always_raised :
  (In "xyz" (expression_tokens "xyz")
   /\ token_unresolved conv "xyz" = true
   /\ convert conv 1 ("m/" +:+ ym14) "xyz" = Raise ZeroDivisionError)
  /\ (In "degF" (expression_tokens "W/degF")
      /\ table_resolvable conv "degF" = false
      /\ succeeds (convert conv 1 "W/degF" "W/K") = true).
Proof.
  split; (split; [vm_compute; tauto |]); split; vm_compute; reflexivity.
Qed.

(** * Further properties of the converter *)

#[local] Set Warnings "-clear-no-such-hyp".

(** ** Dimension dictionaries *)

Lemma dims_sub_dom (acc d : dims) : dom (dims_sub acc d) = dom acc ∪ dom d.
Proof.
  apply set_eq. intros dim.
  rewrite elem_of_union, !elem_of_dom, dims_sub_lookup.
  destruct (d !! dim) as [e |]; split.
  - intros _. right. eauto.
  - intros _. eauto.
  - intros H. now left.
  - intros [H | [x Hx]]; [exact H | discriminate].
Qed.

Lemma dims_add_dom (acc d : dims) : dom (dims_add acc d) = dom acc ∪ dom d.
Proof.
  apply set_eq. intros dim.
  rewrite elem_of_union, !elem_of_dom, dims_add_lookup.
  destruct (d !! dim) as [e |]; split.
  - intros _. right. eauto.
  - intros _. eauto.
  - intros H. now left.
  - intros [H | [x Hx]]; [exact H | discriminate].
Qed.

(** X1: the three loops over a dimension dictionary work axis by axis: the
    accumulation of a token adds its exponents, the final subtraction of the
    denominator subtracts them, a power multiplies them, an absent axis
    counting as 0; and no loop ever removes a key, so an axis that cancels
    stays in the dictionary with exponent 0. *)
Theorem dimension_loops_are_pointwise (acc d : dims) (power : Z) (dim : string) :
  dims_get (dims_add acc d) dim = dims_get acc dim + dims_get d dim
  /\ dims_get (dims_sub acc d) dim = dims_get acc dim - dims_get d dim
  /\ dims_get (dims_scale d power) dim = dims_get d dim * power
  /\ dom (dims_add acc d) = dom acc ∪ dom d
  /\ dom (dims_sub acc d) = dom acc ∪ dom d
  /\ dom (dims_scale d power) = dom d
  /\ dims_sub d d !! dim = (fun _ => 0) <$> d !! dim.
Proof.
  split; [apply dims_get_add |].
  split; [apply dims_get_sub |].
  split; [apply dims_get_scale |].
  split; [apply dims_add_dom |].
  split; [apply dims_sub_dom |].
  split; [apply dom_fmap_L |].
  rewrite dims_sub_lookup. unfold dims_get.
  destruct (d !! dim) as [e |]; simpl; [f_equal; lia | reflexivity].
Qed.

(** ** Compatibility *)

Lemma check_compatible_sym (a b : dims) :
  _check_dimensional_compatibility a b = _check_dimensional_compatibility b a.
Proof.
  apply eq_true_iff_eq. rewrite !check_compatible_iff.
  split; intros H dim; symmetry; apply H.
Qed.

(** X2: dimensional compatibility is an equivalence relation on dimension
    dictionaries: every dictionary is compatible with itself, the check
    gives the same answer with its arguments exchanged, and it is
    transitive. It does not see an explicit zero: a dictionary stays
    compatible when an absent axis is entered with exponent 0, although the
    dictionary is another one. *)
Theorem compatibility_is_an_equivalence (a b c : dims) (dim : string) :
  _check_dimensional_compatibility a a = true
  /\ _check_dimensional_compatibility a b = _check_dimensional_compatibility b a
  /\ (_check_dimensional_compatibility a b = true ->
      _check_dimensional_compatibility b c = true ->
      _check_dimensional_compatibility a c = true)
  /\ (a !! dim = None ->
      _check_dimensional_compatibility (<[dim := 0]> a) a = true
      /\ <[dim := 0]> a <> a).
Proof.
  split; [now apply check_compatible_iff |].
  split; [apply check_compatible_sym |].
  split.
  - intros Hab Hbc. apply check_compatible_iff. intros x.
    rewrite check_compatible_iff in Hab, Hbc. now rewrite Hab.
  - intros Hdim. split.
    + apply check_compatible_iff. intros x. unfold dims_get.
      destruct (decide (dim = x)) as [<- | Hne].
      * now rewrite lookup_insert_eq, Hdim.
      * now rewrite lookup_insert_ne.
    + intros Heq. apply (f_equal (fun m : dims => m !! dim)) in Heq.
      rewrite lookup_insert_eq, Hdim in Heq. discriminate.
Qed.

Lemma compatibility_is_an_equivalence_witness :
  _check_dimensional_compatibility {[ "L" := 1 ]} {[ "L" := 1 ]} = true
  /\ _check_dimensional_compatibility {[ "L" := 1 ]} {[ "L" := 1; "T" := 0 ]}
     = _check_dimensional_compatibility {[ "L" := 1; "T" := 0 ]} {[ "L" := 1 ]}
  /\ _check_dimensional_compatibility {[ "L" := 1 ]} {[ "L" := 1; "M" := 0 ]} = true
  /\ _check_dimensional_compatibility (<[ "N" := 0 ]> {[ "L" := 1 ]}) {[ "L" := 1 ]}
     = true
  /\ <[ "N" := 0 ]> ({[ "L" := 1 ]} : dims) <> {[ "L" := 1 ]}.
Proof.
  destruct (compatibility_is_an_equivalence
              {[ "L" := 1 ]} {[ "L" := 1; "T" := 0 ]} {[ "L" := 1; "M" := 0 ]} "N")
    as (Hrefl & Hsym & Htrans & Hzero).
  split; [exact Hrefl |].
  split; [exact Hsym |].
  split; [apply Htrans; reflexivity |].
  apply Hzero. reflexivity.
Defined.

(** ** The two dictionaries of the converter *)

Lemma add_units_keys table self :
  same_keys self ->
  same_keys (add_units table self)
  /\ dom (unit_dict (add_units table self))
     = dom (unit_dict self) ∪ list_to_set (map fst table).
Proof.
  unfold add_units. revert self.
  induction table as [|[unit data] table IH]; intros self Hself; simpl.
  - split; [exact Hself | set_solver].
  - destruct (IH (Converter (<[unit := factor data]> (unit_dict self))
                            (<[unit := dimensions data]> (dimension_dict self))))
      as [Hsame Hdom].
    + unfold same_keys in *. simpl. rewrite !dom_insert_L. now rewrite Hself.
    + split; [exact Hsame |]. rewrite Hdom. simpl. rewrite dom_insert_L.
      set_solver.
Qed.

Lemma add_prefixed_keys base_unit self entry :
  same_keys self ->
  same_keys (add_prefixed base_unit self entry)
  /\ dom (unit_dict self) ⊆ dom (unit_dict (add_prefixed base_unit self entry)).
Proof.
  intros Hself. unfold add_prefixed. destruct entry as [prefix pfactor].
  destruct (String.eqb base_unit "kg" && String.eqb prefix "k"); [easy |].
  destruct (String.eqb base_unit "gmol" && String.eqb prefix "k"); [easy |].
  destruct (match items_lookup base_unit BASE_UNITS with
            | Some data => Some data
            | None => items_lookup base_unit DERIVED_UNITS
            end) as [data |]; [| easy].
  unfold same_keys in *. simpl. rewrite !dom_insert_L, Hself.
  split; [reflexivity | set_solver].
Qed.

Lemma fold_left_keys {A} (f : converter -> A -> converter) (l : list A) self :
  (forall s a,
     same_keys s ->
     same_keys (f s a) /\ dom (unit_dict s) ⊆ dom (unit_dict (f s a))) ->
  same_keys self ->
  same_keys (fold_left f l self)
  /\ dom (unit_dict self) ⊆ dom (unit_dict (fold_left f l self)).
Proof.
  intros Hf. revert self.
  induction l as [|a l IH]; intros self Hself; cbn [fold_left]; [easy |].
  destruct (Hf self a Hself) as [H1 H2].
  destruct (IH _ H1) as [H3 H4]. split; [exact H3 |].
  etransitivity; eassumption.
Qed.

Lemma fold_base_units_keys bases self :
  same_keys self ->
  same_keys
    (fold_left
       (fun self base_unit => fold_left (add_prefixed base_unit) PREFIXES self)
       bases self)
  /\ dom (unit_dict self)
     ⊆ dom (unit_dict
              (fold_left
                 (fun self base_unit =>
                    fold_left (add_prefixed base_unit) PREFIXES self)
                 bases self)).
Proof.
  apply fold_left_keys. intros s b Hs.
  apply fold_left_keys; [| exact Hs].
  intros s' entry Hs'. now apply add_prefixed_keys.
Qed.

Lemma build_unit_dictionary_keys (self : converter) (unit : string) :
  same_keys self ->
  same_keys (_build_unit_dictionary self)
  /\ dom (unit_dict self) ⊆ dom (unit_dict (_build_unit_dictionary self))
  /\ (In unit (map fst (BASE_UNITS ++ DERIVED_UNITS)) ->
      unit ∈ dom (unit_dict (_build_unit_dictionary self))
      /\ unit ∈ dom (dimension_dict (_build_unit_dictionary self))).
Proof.
  intros Hself. unfold _build_unit_dictionary.
  destruct (add_units_keys BASE_UNITS self Hself) as [H1 D1].
  destruct (add_units_keys DERIVED_UNITS _ H1) as [H2 D2].
  destruct (fold_base_units_keys base_si_units _ H2) as [H3 D3].
  split; [exact H3 |].
  split.
  { intros x Hx. apply D3. rewrite D2, D1.
    apply elem_of_union_l, elem_of_union_l, Hx. }
  intros Hin.
  assert (unit ∈ dom (unit_dict
                        (add_units DERIVED_UNITS (add_units BASE_UNITS self))))
    as Hunit.
  { rewrite D2, D1. rewrite map_app, in_app_iff in Hin.
    rewrite !elem_of_union, !elem_of_list_to_set, !list_elem_of_In. tauto. }
  apply D3 in Hunit. split; [exact Hunit |]. now rewrite <- H3.
Qed.

Lemma conv_same_keys : same_keys conv.
Proof. now apply (build_unit_dictionary_keys (Converter ∅ ∅) ""). Qed.

(** X3: [_build_unit_dictionary] keeps the two dictionaries key for key
    alike, never drops a key, and enters every base and derived symbol; in
    particular the converter that [__init__] builds has the same units in
    [unit_dict] and in [dimension_dict]. *)
Theorem build_keeps_the_dictionaries_aligned (self : converter) (unit : string) :
  same_keys self ->
  same_keys (_build_unit_dictionary self)
  /\ dom (unit_dict self) ⊆ dom (unit_dict (_build_unit_dictionary self))
  /\ (In unit (map fst (BASE_UNITS ++ DERIVED_UNITS)) ->
      unit ∈ dom (unit_dict (_build_unit_dictionary self))
      /\ unit ∈ dom (dimension_dict (_build_unit_dictionary self))).
Proof. intros Hself. now apply build_unit_dictionary_keys. Qed.

Lemma build_keeps_the_dictionaries_aligned_witness :
  same_keys conv
  /\ dom (unit_dict (Converter ∅ ∅)) ⊆ dom (unit_dict conv)
  /\ (In "psi" (map fst (BASE_UNITS ++ DERIVED_UNITS)) ->
      "psi" ∈ dom (unit_dict conv) /\ "psi" ∈ dom (dimension_dict conv)).
Proof.
  apply (build_keeps_the_dictionaries_aligned (Converter ∅ ∅) "psi").
  reflexivity.
Defined.

(** ** What the resolver accepts *)

Section ResolverAccepts.

Variable self : converter.
Hypothesis aligned : same_keys self.

Lemma bool_decide_is_Some {A} (o : option A) :
  bool_decide (is_Some o) = is_some o.
Proof.
  destruct o; reflexivity.
Qed.

Lemma aligned_lookup unit :
  is_some (dimension_dict self !! unit) = is_some (unit_dict self !! unit).
Proof.
  rewrite <- !bool_decide_is_Some. apply bool_decide_ext.
  rewrite <- !elem_of_dom. now rewrite aligned.
Qed.

Lemma factor_by_prefix_some unit prefixes :
  is_some (factor_by_prefix self unit prefixes)
  = existsb (by_prefix self unit) prefixes.
Proof.
  induction prefixes as [|[p pf] l IH]; [reflexivity |].
  simpl. unfold by_prefix at 1. simpl. rewrite bool_decide_is_Some.
  destruct (Py.startswith unit p); [| exact IH].
  destruct (unit_dict self !! Py.drop (String.length p) unit); [reflexivity |].
  exact IH.
Qed.

Lemma dimensions_by_prefix_some unit prefixes :
  is_some (dimensions_by_prefix self unit prefixes)
  = existsb (by_prefix self unit) prefixes.
Proof.
  induction prefixes as [|[p pf] l IH]; [reflexivity |].
  simpl. unfold by_prefix at 1. simpl.
  rewrite bool_decide_is_Some, <- aligned_lookup.
  destruct (Py.startswith unit p); [| exact IH].
  destruct (dimension_dict self !! Py.drop (String.length p) unit);
    [reflexivity |].
  exact IH.
Qed.

Lemma get_unit_factor_succeeds unit :
  succeeds (_get_unit_factor self unit)
  = table_resolvable self unit || String.eqb unit "kg".
Proof.
  unfold _get_unit_factor, table_resolvable.
  rewrite bool_decide_is_Some.
  change (existsb _ PREFIXES) with (existsb (by_prefix self unit) PREFIXES).
  rewrite <- factor_by_prefix_some.
  destruct (unit_dict self !! unit); [reflexivity |].
  destruct (factor_by_prefix self unit PREFIXES); [reflexivity |].
  destruct (String.eqb unit "kg"); reflexivity.
Qed.

Lemma get_unit_dimensions_succeeds unit :
  succeeds (_get_unit_dimensions self unit)
  = table_resolvable self unit || String.eqb unit "kg".
Proof.
  unfold _get_unit_dimensions, table_resolvable.
  rewrite bool_decide_is_Some, <- aligned_lookup.
  change (existsb _ PREFIXES) with (existsb (by_prefix self unit) PREFIXES).
  rewrite <- dimensions_by_prefix_some.
  destruct (dimension_dict self !! unit); [reflexivity |].
  destruct (dimensions_by_prefix self unit PREFIXES); [reflexivity |].
  destruct (String.eqb unit "kg"); reflexivity.
Qed.

Lemma get_unit_factor_raises unit e :
  _get_unit_factor self unit = Raise e -> e = UnknownUnit unit.
Proof.
  unfold _get_unit_factor.
  destruct (unit_dict self !! unit); [discriminate |].
  destruct (factor_by_prefix self unit PREFIXES); [discriminate |].
  destruct (String.eqb unit "kg"); [discriminate | congruence].
Qed.

Lemma get_unit_dimensions_raises unit e :
  _get_unit_dimensions self unit = Raise e -> e = UnknownUnit unit.
Proof.
  unfold _get_unit_dimensions.
  destruct (dimension_dict self !! unit); [discriminate |].
  destruct (dimensions_by_prefix self unit PREFIXES); [discriminate |].
  destruct (String.eqb unit "kg"); [discriminate | congruence].
Qed.

Lemma startswith_app p u : Py.startswith (p +:+ u) p = true.
Proof.
  induction p as [|a p IH]; simpl; [now destruct u |].
  now rewrite Ascii.eqb_refl.
Qed.

Lemma prefixed_key_resolvable p m u :
  In (p, m) PREFIXES -> u ∈ dom (unit_dict self) ->
  table_resolvable self (p +:+ u) = true.
Proof.
  intros Hp Hu. unfold table_resolvable. apply orb_true_iff. right.
  apply existsb_exists. exists (p, m). split; [exact Hp |]. simpl.
  rewrite startswith_app, PyFacts.drop_app. simpl.
  apply bool_decide_eq_true_2. now apply elem_of_dom.
Qed.

End ResolverAccepts.

(** X4: with the two dictionaries aligned, [_get_unit_factor] and
    [_get_unit_dimensions] accept the same symbols: those that are a key of
    the table, those that start with a prefix whose removal leaves a key,
    and the literal [kg]; on every other symbol both raise [UnknownUnit]
    carrying the symbol. *)
Theorem resolver_accepts_keys_and_prefixed_keys
    (self : converter) (unit : string) :
  same_keys self ->
  succeeds (_get_unit_factor self unit)
  = table_resolvable self unit || String.eqb unit "kg"
  /\ succeeds (_get_unit_dimensions self unit)
     = succeeds (_get_unit_factor self unit)
  /\ (succeeds (_get_unit_factor self unit) = false ->
      _get_unit_factor self unit = Raise (UnknownUnit unit)
      /\ _get_unit_dimensions self unit = Raise (UnknownUnit unit)).
Proof.
  intros Hself.
  pose proof (get_unit_factor_succeeds self unit) as Hf.
  pose proof (get_unit_dimensions_succeeds self Hself unit) as Hd.
  split; [exact Hf |]. split; [now rewrite Hf, Hd |].
  intros Hfail. rewrite <- Hf, Hfail in Hd. split.
  - destruct (_get_unit_factor self unit) as [f | e] eqn:E; [discriminate |].
    now rewrite (get_unit_factor_raises self unit e E).
  - destruct (_get_unit_dimensions self unit) as [d | e] eqn:E; [discriminate |].
    now rewrite (get_unit_dimensions_raises self unit e E).
Qed.

Lemma resolver_accepts_keys_and_prefixed_keys_witness :
  succeeds (_get_unit_factor conv "furlong")
  = table_resolvable conv "furlong" || String.eqb "furlong" "kg"
  /\ succeeds (_get_unit_dimensions conv "furlong")
     = succeeds (_get_unit_factor conv "furlong")
  /\ (succeeds (_get_unit_factor conv "furlong") = false ->
      _get_unit_factor conv "furlong" = Raise (UnknownUnit "furlong")
      /\ _get_unit_dimensions conv "furlong" = Raise (UnknownUnit "furlong")).
Proof.
  apply (resolver_accepts_keys_and_prefixed_keys conv "furlong").
  exact conv_same_keys.
Defined.

(** X5: the prefix fallback accepts any prefix in front of any key of the
    table, not only in front of the twelve prefixable symbols: prefixed
    non-SI units and stacked prefixes resolve too. *)
Theorem any_prefix_on_any_key_resolves
    (self : converter) (p u : string) (m : float) :
  same_keys self ->
  In (p, m) PREFIXES ->
  u ∈ dom (unit_dict self) ->
  succeeds (_get_unit_factor self (p +:+ u)) = true
  /\ succeeds (_get_unit_dimensions self (p +:+ u)) = true.
Proof.
  intros Hself Hp Hu.
  rewrite (get_unit_dimensions_succeeds self Hself), get_unit_factor_succeeds.
  rewrite (prefixed_key_resolvable self p m u Hp Hu). now split.
Qed.

Lemma any_prefix_on_any_key_resolves_witness :
  succeeds (_get_unit_factor conv "kkm") = true
  /\ succeeds (_get_unit_dimensions conv "kkm") = true.
Proof.
  apply (any_prefix_on_any_key_resolves conv "k" "km" 1e3).
  - exact conv_same_keys.
  - simpl. tauto.
  - apply elem_of_dom. vm_compute. eauto.
Defined.

(** ** The exceptions of [convert] *)

Section Exceptions.
Import Py PyFacts.

Variable self : converter.

Lemma float_pow_raises x n e : float_pow x n = Raise e -> e = OverflowError.
Proof.
  unfold float_pow.
  destruct (float_max_int <=? n); [congruence |].
  destruct (n =? 0); [discriminate |].
  destruct (PrimFloat.eqb x 1); [discriminate |].
  destruct (is_inf _ && negb (is_inf x)); [congruence | discriminate].
Qed.

Lemma float_div_raises a b e : float_div a b = Raise e -> e = ZeroDivisionError.
Proof.
  unfold float_div. destruct (PrimFloat.eqb b 0); [congruence | discriminate].
Qed.

Lemma parse_simple_raises t e :
  _parse_simple_unit_with_dims self t = Raise e ->
  e = UnknownUnit (fst (power_suffix t)) \/ e = OverflowError.
Proof.
  unfold _parse_simple_unit_with_dims.
  destruct (String.eqb t "" || String.eqb t "1"); [discriminate |].
  destruct (temperature_scale t); [discriminate |].
  destruct (power_suffix t) as [base_unit power]. simpl.
  destruct (_get_unit_factor self base_unit) as [bf | e1] eqn:Ef.
  - rewrite bind_Ok.
    destruct (_get_unit_dimensions self base_unit) as [bd | e2] eqn:Ed.
    + rewrite bind_Ok.
      destruct (float_pow bf power) as [f | e3] eqn:Ep; [discriminate |].
      rewrite bind_Raise. intros [= <-]. right.
      now apply float_pow_raises in Ep.
    + rewrite bind_Raise. intros [= <-]. left.
      now apply get_unit_dimensions_raises in Ed.
  - rewrite bind_Raise. intros [= <-]. left.
    now apply get_unit_factor_raises in Ef.
Qed.

Lemma first_error_token ts e :
  first_error self ts = Some e ->
  exists t, In t ts /\ _parse_simple_unit_with_dims self t = Raise e.
Proof.
  induction ts as [|t ts IH]; simpl; [discriminate |].
  destruct (_parse_simple_unit_with_dims self t) as [r | e'] eqn:E.
  - intros H. destruct (IH H) as (t' & Hin & Ht'). eauto.
  - intros [= <-]. eauto.
Qed.

Lemma split1_two sep s :
  contains sep s = true -> exists p q, split1 sep s = [p; q].
Proof.
  induction s as [|a s IH]; simpl; [discriminate |].
  destruct (Ascii.eqb a sep); [eauto |].
  intros H. destruct (IH H) as (p & q & ->). eauto.
Qed.

(** [_split_unit_expression] never raises: the indices it reads exist. *)
Lemma split_unit_expression_total expr :
  exists num dens, _split_unit_expression expr = Ok (Parts [num] dens)
                   /\ dens <> [].
Proof.
  unfold _split_unit_expression.
  destruct (contains "/" (remove " " expr)) eqn:Hslash; simpl.
  - destruct (contains "(" (remove " " expr) && contains ")" (remove " " expr)).
    + destruct (split1_two _ _ Hslash) as (p & q & ->). simpl.
      eexists _, _. split; [reflexivity | discriminate].
    + destruct (split_two _ _ Hslash) as (p & q & r & ->). simpl.
      eexists _, _. split; [reflexivity | discriminate].
  - eexists _, _. split; [reflexivity | discriminate].
Qed.

Lemma parse_expression_raises expr e :
  _parse_unit_expression_with_dims self expr = Raise e ->
  e = ZeroDivisionError
  \/ exists t, In t (expression_tokens expr)
               /\ _parse_simple_unit_with_dims self t = Raise e.
Proof.
  unfold _parse_unit_expression_with_dims, expression_tokens.
  destruct (String.eqb expr "" || String.eqb expr "1"
            || String.eqb expr "dimensionless"); [discriminate |].
  destruct (negb (contains "/" expr) && negb (contains "." expr)).
  - intros H. right. exists expr. split; [now left | exact H].
  - destruct (split_unit_expression_total expr) as (num & dens & -> & _).
    rewrite bind_Ok. cbn [numerator denominator].
    pose proof (parse_parts_first_error self [num] 1 ∅) as Hn.
    pose proof (parse_parts_first_error self dens 1 ∅) as Hd.
    destruct (first_error self (side_tokens [num])) as [en |] eqn:En.
    + rewrite Hn, bind_Raise. intros [= <-]. right.
      destruct (first_error_token _ _ En) as (t & Hin & Ht).
      exists t. split; [apply in_or_app; now left | exact Ht].
    + destruct Hn as [[nf nd] ->]. rewrite bind_Ok.
      destruct (first_error self (side_tokens dens)) as [ed |] eqn:Ed.
      * rewrite Hd, bind_Raise. intros [= <-]. right.
        destruct (first_error_token _ _ Ed) as (t & Hin & Ht).
        exists t. split; [apply in_or_app; now right | exact Ht].
      * destruct Hd as [[df dd] ->]. rewrite bind_Ok.
        destruct (float_div nf df) as [f | e'] eqn:Ediv; [discriminate |].
        rewrite bind_Raise. intros [= <-]. left.
        now apply float_div_raises in Ediv.
Qed.

Lemma parse_expression_expected expr e from_unit to_unit :
  In expr [from_unit; to_unit] ->
  _parse_unit_expression_with_dims self expr = Raise e ->
  expected_error from_unit to_unit e.
Proof.
  intros Hin H. apply parse_expression_raises in H as [-> | (t & Ht & Hraise)];
    [exact I |].
  apply parse_simple_raises in Hraise as [-> | ->]; [| exact I].
  exists t. split; [| reflexivity]. apply in_or_app.
  destruct Hin as [<- | [<- | []]]; [now left | now right].
Qed.

Lemma convert_temperature_succeeds v from_unit to_unit :
  is_temperature_unit from_unit && is_temperature_unit to_unit = true ->
  succeeds (_convert_temperature v from_unit to_unit) = true.
Proof.
  intros H. apply andb_prop in H as [Hf Ht].
  apply is_temperature_unit_inv in Hf as [-> | [-> | [-> | ->]]];
    apply is_temperature_unit_inv in Ht as [-> | [-> | [-> | ->]]];
    reflexivity.
Qed.

End Exceptions.

(** X6: on ASCII unit strings [convert] raises nothing but [UnknownUnit],
    [IncompatibleDimensions], [ZeroDivisionError] and [OverflowError]: the
    error for an unknown temperature symbol is unreachable through
    [convert], no index is read out of range, an [UnknownUnit] carries a
    token of one of the two expressions without its power suffix, and an
    [IncompatibleDimensions] names the two expressions as they were
    given. *)
Theorem convert_raises_only_expected_errors
    (self : converter) (v : float) (from_unit to_unit : string) (e : exn) :
  is_ascii from_unit = true ->
  is_ascii to_unit = true ->
  convert self v from_unit to_unit = Raise e ->
  expected_error from_unit to_unit e.
Proof.
  intros _ _. unfold convert.
  destruct (is_temperature_unit from_unit && is_temperature_unit to_unit) eqn:Ht.
  - intros H. pose proof (convert_temperature_succeeds v _ _ Ht) as Hok.
    rewrite H in Hok. discriminate.
  - destruct (_parse_unit_expression_with_dims self from_unit)
      as [[ff fd] | e1] eqn:Hfrom.
    + rewrite bind_Ok.
      destruct (_parse_unit_expression_with_dims self to_unit)
        as [[tf td] | e2] eqn:Hto.
      * rewrite bind_Ok.
        destruct (negb (_check_dimensional_compatibility fd td)).
        { intros [= <-]. now split. }
        destruct (float_div ff tf) as [q | e3] eqn:Ediv; [discriminate |].
        rewrite bind_Raise. intros [= <-].
        now rewrite (float_div_raises _ _ _ Ediv).
      * rewrite bind_Raise. intros [= <-].
        apply (parse_expression_expected self to_unit); [simpl; tauto | exact Hto].
    + rewrite bind_Raise. intros [= <-].
      apply (parse_expression_expected self from_unit); [simpl; tauto | exact Hfrom].
Qed.

Lemma convert_raises_only_expected_errors_witness :
  expected_error "xyz3" "m" (UnknownUnit "xyz").
Proof.
  apply (convert_raises_only_expected_errors conv 1 "xyz3" "m");
    [reflexivity | reflexivity |].
  vm_compute. reflexivity.
Defined.

(** ** The value plays no part in the outcome *)

(** X7: outside the temperature branch the outcome of a conversion does not
    depend on the value: an exception is raised for every value or for
    none, and a result is the value times a factor that is the same for
    every value. *)
Theorem conversion_is_a_multiplication
    (self : converter) (v v' : float) (from_unit to_unit : string) :
  is_temperature_unit from_unit && is_temperature_unit to_unit = false ->
  match convert self v from_unit to_unit with
  | Ok r => exists q, r = (v * q)%float
                      /\ convert self v' from_unit to_unit = Ok (v' * q)%float
  | Raise e => convert self v' from_unit to_unit = Raise e
  end.
Proof.
  intros Htemp. unfold convert. rewrite Htemp.
  destruct (_parse_unit_expression_with_dims self from_unit)
    as [[ff fd] | e1]; [| reflexivity].
  rewrite !bind_Ok.
  destruct (_parse_unit_expression_with_dims self to_unit)
    as [[tf td] | e2]; [| reflexivity].
  rewrite !bind_Ok.
  destruct (negb (_check_dimensional_compatibility fd td)); [reflexivity |].
  destruct (float_div ff tf) as [q | e3]; [| reflexivity].
  rewrite !bind_Ok. eauto.
Qed.

Lemma conversion_is_a_multiplication_witness :
  match convert conv 100 "cm" "m" with
  | Ok r => exists q, r = (100 * q)%float
                      /\ convert conv 250 "cm" "m" = Ok (250 * q)%float
  | Raise e => convert conv 250 "cm" "m" = Raise e
  end.
Proof.
  apply (conversion_is_a_multiplication conv 100 250 "cm" "m"). reflexivity.
Defined.

(** ** Spaces *)

Lemma remove_idempotent c s : Py.remove c (Py.remove c s) = Py.remove c s.
Proof.
  induction s as [|a s IH]; simpl; [reflexivity |].
  destruct (Ascii.eqb a c) eqn:E; [exact IH |]. simpl. now rewrite E, IH.
Qed.

Lemma split_unit_expression_spaces expr :
  _split_unit_expression (Py.remove " " expr) = _split_unit_expression expr.
Proof. unfold _split_unit_expression. now rewrite remove_idempotent. Qed.

Lemma compound_guards expr :
  Py.contains "/" expr || Py.contains "." expr = true ->
  String.eqb expr "" || String.eqb expr "1"
    || String.eqb expr "dimensionless" = false
  /\ negb (Py.contains "/" expr) && negb (Py.contains "." expr) = false.
Proof.
  intros H. split.
  - destruct (String.eqb_spec expr "") as [-> | _]; [discriminate |].
    destruct (String.eqb_spec expr "1") as [-> | _]; [discriminate |].
    destruct (String.eqb_spec expr "dimensionless") as [-> | _];
      [discriminate | reflexivity].
  - destruct (Py.contains "/" expr), (Py.contains "." expr);
      solve [reflexivity | discriminate].
Qed.

(** X8: in an expression with a slash or a dot, spaces are ignored: the
    expression parses as the one with its spaces removed does. *)
Theorem spaces_are_ignored_in_compound_expressions
    (self : converter) (expr : string) :
  Py.contains "/" expr || Py.contains "." expr = true ->
  _parse_unit_expression_with_dims self expr
  = _parse_unit_expression_with_dims self (Py.remove " " expr).
Proof.
  intros H.
  assert (Py.contains "/" (Py.remove " " expr)
          || Py.contains "." (Py.remove " " expr) = true) as H'.
  { now rewrite !PyFacts.contains_remove. }
  unfold _parse_unit_expression_with_dims.
  destruct (compound_guards expr H) as [-> ->].
  destruct (compound_guards _ H') as [-> ->].
  now rewrite split_unit_expression_spaces.
Qed.

Lemma spaces_are_ignored_in_compound_expressions_witness :
  _parse_unit_expression_with_dims conv "kg / m . s"
  = _parse_unit_expression_with_dims conv "kg/m.s".
Proof.
  apply (spaces_are_ignored_in_compound_expressions conv "kg / m . s").
  reflexivity.
Defined.

(** ** Power suffixes in general *)

Section PowerSuffixGeneral.
Import Py PyFacts.

Lemma take_drop i s : take i s +:+ drop i s = s.
Proof.
  revert s. induction i as [|i IH]; intros s; [now destruct s |].
  destruct s as [|a s]; [reflexivity |]. cbn [take drop].
  rewrite app_cons. f_equal. apply IH.
Qed.

Lemma length_take i s :
  (i <= String.length s)%nat -> String.length (take i s) = i.
Proof.
  revert s. induction i as [|i IH]; intros s Hi; [now destruct s |].
  destruct s as [|a s]; simpl in *; [lia |]. rewrite IH; lia.
Qed.

Lemma get_take i j s :
  (j < i)%nat -> String.get j (take i s) = String.get j s.
Proof.
  revert j s. induction i as [|i IH]; intros j s Hj; [lia |].
  destruct s as [|a s]; [reflexivity |].
  destruct j as [|j]; simpl; [reflexivity | apply IH; lia].
Qed.

Lemma drop_get j s c :
  String.get j s = Some c -> drop j s = String c (drop (S j) s).
Proof.
  revert s. induction j as [|j IH]; intros s H.
  - destruct s as [|a s]; simpl in *; [discriminate |].
    injection H as ->. now destruct s.
  - destruct s as [|a s]; simpl in *; [discriminate |]. apply IH, H.
Qed.

Lemma drop_all s : drop (String.length s) s = EmptyString.
Proof. induction s as [|a s IH]; [reflexivity | exact IH]. Qed.

Lemma scan_digits_le s k : (scan_digits s k <= k)%nat.
Proof.
  induction k as [|k IH]; simpl; [lia |].
  destruct (String.get k s) as [c |]; [| lia].
  destruct (isdigit c); lia.
Qed.

Lemma scan_digits_all s k :
  (k <= String.length s)%nat ->
  all_digits (drop k s) = true ->
  all_digits (drop (scan_digits s k) s) = true.
Proof.
  induction k as [|k IH]; intros Hk Hd; simpl; [exact Hd |].
  destruct (get_Some_lt s k) as [c Hc]; [lia |]. rewrite Hc.
  destruct (isdigit c) eqn:Ec; [| exact Hd].
  apply IH; [lia |]. rewrite (drop_get _ _ _ Hc). simpl. now rewrite Ec.
Qed.

Lemma scan_digits_stop s k :
  (k <= String.length s)%nat ->
  scan_digits s k = O
  \/ exists c, String.get (scan_digits s k - 1) s = Some c
               /\ isdigit c = false.
Proof.
  induction k as [|k IH]; intros Hk; simpl; [now left |].
  destruct (get_Some_lt s k) as [c Hc]; [lia |]. rewrite Hc.
  destruct (isdigit c) eqn:Ec; [apply IH; lia |].
  right. exists c. simpl. now rewrite Nat.sub_0_r.
Qed.

Lemma int_acc_nonneg ds acc :
  all_digits ds = true -> 0 <= acc -> 0 <= int_acc acc ds.
Proof.
  revert acc. induction ds as [|a ds IH]; intros acc Hd Hacc; simpl; [exact Hacc |].
  simpl in Hd. apply andb_prop in Hd as [Ha Hds]. apply IH; [exact Hds |].
  unfold isdigit in Ha. apply andb_prop in Ha as [Hlo _].
  apply Nat.leb_le in Hlo. lia.
Qed.

Lemma last_is_digit_take s :
  last_is_digit (take (scan_digits s (String.length s)) s) = false.
Proof.
  unfold last_is_digit.
  pose proof (scan_digits_le s (String.length s)) as Hle.
  rewrite length_take by exact Hle.
  destruct (scan_digits_stop s (String.length s) (Nat.le_refl _))
    as [-> | (c & Hc & Hdigit)].
  - now destruct s.
  - destruct (scan_digits s (String.length s)) as [|i] eqn:Ei.
    + now destruct s.
    + rewrite get_take by lia. now rewrite Hc.
Qed.

Lemma all_digits_empty_or ds :
  all_digits ds = true -> last_is_digit ds = false -> ds = EmptyString.
Proof.
  intros Hd Hl. destruct ds as [|a ds]; [reflexivity |]. exfalso.
  unfold last_is_digit in Hl.
  destruct (get_Some_lt (String a ds) (String.length (String a ds) - 1))
    as [c Hc]; [simpl; lia |].
  rewrite Hc in Hl. rewrite (all_digits_get _ _ _ Hd Hc) in Hl. discriminate.
Qed.

End PowerSuffixGeneral.

Lemma power_suffix_cut (unit_str : string) :
  exists ds,
    all_digits ds = true
    /\ unit_str = fst (power_suffix unit_str) +:+ ds
    /\ last_is_digit (fst (power_suffix unit_str)) = false
    /\ snd (power_suffix unit_str)
       = (if String.eqb ds "" then 1 else Py.int ds)
    /\ 0 <= snd (power_suffix unit_str).
Proof.
  unfold power_suffix. fold (last_is_digit unit_str).
  destruct (last_is_digit unit_str) eqn:Hlast; cbn [fst snd].
  - set (i := scan_digits unit_str (String.length unit_str)).
    exists (Py.drop i unit_str).
    assert (all_digits (Py.drop i unit_str) = true) as Hd.
    { apply scan_digits_all; [lia |]. now rewrite drop_all. }
    split; [exact Hd |].
    split; [now rewrite take_drop |].
    split; [apply last_is_digit_take |].
    assert (Py.drop i unit_str <> EmptyString) as Hne.
    { intros Hempty. pose proof (take_drop i unit_str) as Heq.
      rewrite Hempty in Heq.
      pose proof (last_is_digit_take unit_str) as Hno. fold i in Hno.
      assert (Py.take i unit_str = unit_str) as Htake.
      { rewrite <- Heq at 2. clear. induction (Py.take i unit_str) as [|a s IH];
          [reflexivity |]. rewrite PyFacts.app_cons. now rewrite <- IH. }
      rewrite Htake in Hno. congruence. }
    apply String.eqb_neq in Hne. rewrite Hne.
    split; [reflexivity |]. now apply int_acc_nonneg.
  - exists EmptyString. split; [reflexivity |].
    split.
    { clear. induction unit_str as [|a s IH]; [reflexivity |].
      rewrite PyFacts.app_cons. now rewrite <- IH. }
    split; [exact Hlast |]. split; [reflexivity | lia].
Qed.

(** X9: the power-suffix scan cuts an ASCII token into a base-unit
    candidate and the trailing run of decimal digits: the two pieces give
    back the token, the candidate never ends in a digit, the power is the
    number the digits spell, 1 when there are none, and it is never
    negative. *)
Theorem power_suffix_cuts_the_trailing_digits (unit_str : string) :
  is_ascii unit_str = true ->
  exists ds,
    all_digits ds = true
    /\ unit_str = fst (power_suffix unit_str) +:+ ds
    /\ last_is_digit (fst (power_suffix unit_str)) = false
    /\ snd (power_suffix unit_str)
       = (if String.eqb ds "" then 1 else Py.int ds)
    /\ 0 <= snd (power_suffix unit_str).
Proof. intros _. exact (power_suffix_cut unit_str). Qed.

Lemma power_suffix_cuts_the_trailing_digits_witness :
  exists ds,
    all_digits ds = true
    /\ "ft2" = fst (power_suffix "ft2") +:+ ds
    /\ last_is_digit (fst (power_suffix "ft2")) = false
    /\ snd (power_suffix "ft2") = (if String.eqb ds "" then 1 else Py.int ds)
    /\ 0 <= snd (power_suffix "ft2").
Proof.
  apply (power_suffix_cuts_the_trailing_digits "ft2"). reflexivity.
Defined.

Section TokenPower.
Import Py PyFacts.

Lemma get_app_l s t k :
  (k < String.length s)%nat -> String.get k (s +:+ t) = String.get k s.
Proof.
  revert k. induction s as [|a s IH]; intros k Hk; simpl in Hk; [lia |].
  rewrite app_cons. destruct k as [|k]; simpl; [reflexivity | apply IH; lia].
Qed.

Lemma scan_stops_last s ds :
  s <> EmptyString -> last_is_digit s = false -> scan_stops s ds.
Proof.
  intros Hs Hlast. unfold scan_stops, last_is_digit in *.
  destruct (String.length s) as [|k] eqn:Hlen; [now destruct s |].
  simpl in Hlast. rewrite Nat.sub_0_r in Hlast. simpl.
  rewrite get_app_l by lia.
  destruct (get_Some_lt s k) as [c Hc]; [lia |].
  rewrite Hc in *. now rewrite Hlast.
Qed.

Lemma digits_not_special ds :
  ds <> EmptyString -> ds <> "1" ->
  String.eqb ds "" || String.eqb ds "1" = false.
Proof.
  intros H0 H1. apply String.eqb_neq in H0, H1. now rewrite H0, H1.
Qed.

End TokenPower.

(** X10: a token made of digits only, other than ["1"], is an unknown unit:
    the whole token is taken for the power, the base-unit candidate is the
    empty string, and [UnknownUnit] is raised carrying the empty string. *)
Theorem digits_alone_are_an_unknown_unit (ds : string) :
  ds <> EmptyString -> ds <> "1" -> all_digits ds = true ->
  power_suffix ds = (EmptyString, Py.int ds)
  /\ _parse_simple_unit_with_dims conv ds = Raise (UnknownUnit "").
Proof.
  intros Hne H1 Hd.
  assert (power_suffix ds = (EmptyString, Py.int ds)) as Hsuffix.
  { apply (power_suffix_app EmptyString ds Hne Hd). reflexivity. }
  split; [exact Hsuffix |].
  unfold _parse_simple_unit_with_dims.
  rewrite (digits_not_special ds Hne H1).
  rewrite temperature_scale_digit
    by exact (last_is_digit_app EmptyString ds Hne Hd).
  rewrite Hsuffix.
  assert (_get_unit_factor conv "" = Raise (UnknownUnit "")) as ->
    by (vm_compute; reflexivity).
  reflexivity.
Qed.

Lemma digits_alone_are_an_unknown_unit_witness :
  power_suffix "42" = (EmptyString, 42)
  /\ _parse_simple_unit_with_dims conv "42" = Raise (UnknownUnit "").
Proof.
  apply (digits_alone_are_an_unknown_unit "42");
    solve [discriminate | reflexivity].
Defined.

(** *** Powers that do not need C's [pow] *)

Lemma SFeqb_finite (s : bool) (m p : positive) (e q : Z) :
  SpecFloat.SFeqb (S754_finite s m e) (S754_finite false p q) = true ->
  S754_finite s m e = S754_finite false p q.
Proof.
  unfold SpecFloat.SFeqb, SpecFloat.SFcompare.
  destruct s; [discriminate |].
  destruct (Z.compare e q) eqn:He; [| discriminate | discriminate].
  apply Z.compare_eq in He.
  fold (Pos.compare m p).
  destruct (Pos.compare m p) eqn:Hm; [| discriminate | discriminate].
  apply Pos.compare_eq in Hm. intros _. now rewrite He, Hm.
Qed.

(** [x == 1.0] holds of [1.0] only. *)
Lemma float_eqb_one (x : float) : PrimFloat.eqb x 1 = true -> x = 1%float.
Proof.
  rewrite FloatAxioms.eqb_spec. intros H.
  apply FloatAxioms.Prim2SF_inj.
  change (Prim2SF 1) with (S754_finite false 4503599627370496 (-52)) in *.
  destruct (Prim2SF x) as [s | s | | s m e].
  - destruct s; discriminate H.
  - destruct s; discriminate H.
  - discriminate H.
  - exact (SFeqb_finite _ _ _ _ _ H).
Qed.

Lemma shr_fexp_shifted (m : positive) (e : Z) :
  SpecFloat.fexp prec emax (Z.pos (SpecFloat.digits2_pos m) + e) = e ->
  SpecFloat.shr_fexp prec emax (Z.pos (Pos.iter xO m 52)) (-52 + e)
    SpecFloat.loc_Exact
  = ({| SpecFloat.shr_m := Z.pos m; SpecFloat.shr_r := false;
        SpecFloat.shr_s := false |}, e).
Proof.
  intros Hc. unfold SpecFloat.shr_fexp.
  assert (SpecFloat.Zdigits2 (Z.pos (Pos.iter xO m 52)) + (-52 + e)
          = Z.pos (SpecFloat.digits2_pos m) + e) as ->.
  { cbn [SpecFloat.Zdigits2 Pos.iter SpecFloat.digits2_pos].
    rewrite !Pos2Z.inj_succ. lia. }
  rewrite Hc.
  replace (e - (-52 + e)) with 52 by lia.
  unfold SpecFloat.shr. f_equal. lia.
Qed.

Lemma shr_fexp_canonical (m : positive) (e : Z) :
  SpecFloat.fexp prec emax (Z.pos (SpecFloat.digits2_pos m) + e) = e ->
  SpecFloat.shr_fexp prec emax (Z.pos m) e SpecFloat.loc_Exact
  = ({| SpecFloat.shr_m := Z.pos m; SpecFloat.shr_r := false;
        SpecFloat.shr_s := false |}, e).
Proof.
  intros Hc. unfold SpecFloat.shr_fexp. cbn [SpecFloat.Zdigits2].
  rewrite Hc, Z.sub_diag. reflexivity.
Qed.

(** [1.0 * x] is [x], for every float. *)
Lemma float_mul_one (x : float) : PrimFloat.mul 1 x = x.
Proof.
  apply FloatAxioms.Prim2SF_inj. rewrite FloatAxioms.mul_spec.
  pose proof (FloatAxioms.Prim2SF_valid x) as Hv.
  change (Prim2SF 1) with (S754_finite false 4503599627370496 (-52)).
  destruct (Prim2SF x) as [s | s | | s m e]; try reflexivity.
  unfold FloatAxioms.SF64mul, SpecFloat.SFmul. cbn [xorb].
  unfold SpecFloat.valid_binary, SpecFloat.bounded,
    SpecFloat.canonical_mantissa in Hv.
  apply andb_prop in Hv as [Hc He]. apply Z.eqb_eq in Hc.
  change (4503599627370496 * m)%positive with (Pos.iter xO m 52%positive).
  unfold SpecFloat.binary_round_aux.
  rewrite (shr_fexp_shifted m e Hc).
  cbn [SpecFloat.shr_m SpecFloat.loc_of_shr_record
       SpecFloat.round_nearest_even].
  rewrite (shr_fexp_canonical m e Hc).
  cbn [SpecFloat.shr_m]. now rewrite He.
Qed.

(** [x ** 1] is [x]. *)
Lemma float_pow_one (x : float) : float_pow x 1 = Ok x.
Proof.
  unfold float_pow.
  change (float_max_int <=? 1) with false.
  change (1 =? 0) with false. cbv iota.
  destruct (PrimFloat.eqb x 1) eqn:E; [now rewrite (float_eqb_one x E) |].
  change (Pos.iter (fun a => PrimFloat.mul a x) 1%float (Z.to_pos 1))
    with (PrimFloat.mul 1 x).
  rewrite float_mul_one. now destruct (is_inf x).
Qed.

(** [1.0 ** n] is [1.0] for every [n] that converts to a float. *)
Lemma float_pow_of_one (n : Z) : n < float_max_int -> float_pow 1 n = Ok 1%float.
Proof.
  intros Hn. unfold float_pow.
  destruct (float_max_int <=? n) eqn:E; [apply Z.leb_le in E; lia |].
  now destruct (n =? 0).
Qed.

Lemma dims_scale_one (d : dims) : dims_scale d 1 = d.
Proof.
  unfold dims_scale. apply map_eq. intros dim. rewrite lookup_fmap.
  destruct (d !! dim) as [e |]; simpl; [f_equal; lia | reflexivity].
Qed.

(** X11: on an ASCII symbol that resolves and does not end in a digit, a
    power suffix of decimal digits multiplies every exponent of the symbol
    by the power: the token has this dimension vector, unless raising the
    factor overflows. Its factor is 1.0 with the power 0, whatever the
    symbol, and the token is then dimensionless; it is the factor of the
    symbol with the power 1; and it is 1.0 for a symbol of factor 1.0 with
    any power that converts to a float. *)
Theorem power_suffix_raises_the_unit_to_the_power
    (self : converter) (s ds : string) (bf : float) (bd : dims) :
  is_ascii s = true ->
  s <> EmptyString -> last_is_digit s = false ->
  ds <> EmptyString -> all_digits ds = true ->
  _get_unit_factor self s = Ok bf ->
  _get_unit_dimensions self s = Ok bd ->
  (forall dim,
     dims_get (dims_scale bd (Py.int ds)) dim = dims_get bd dim * Py.int ds)
  /\ ((exists f, _parse_simple_unit_with_dims self (s +:+ ds)
                 = Ok (f, dims_scale bd (Py.int ds)))
      \/ _parse_simple_unit_with_dims self (s +:+ ds) = Raise OverflowError)
  /\ (Py.int ds = 0 ->
      _parse_simple_unit_with_dims self (s +:+ ds) = Ok (1%float, dims_scale bd 0)
      /\ _check_dimensional_compatibility (dims_scale bd 0) ∅ = true)
  /\ (Py.int ds = 1 ->
      _parse_simple_unit_with_dims self (s +:+ ds) = Ok (bf, bd))
  /\ (bf = 1%float -> Py.int ds < float_max_int ->
      _parse_simple_unit_with_dims self (s +:+ ds)
      = Ok (1%float, dims_scale bd (Py.int ds))).
Proof.
  intros _ Hs Hlast Hne Hd Hf Hdims.
  assert (_parse_simple_unit_with_dims self (s +:+ ds)
          = (f ← float_pow bf (Py.int ds); Ok (f, dims_scale bd (Py.int ds))))
    as Hparse.
  { rewrite parse_simple_power
      by (try assumption; now apply scan_stops_last).
    now rewrite Hf, bind_Ok, Hdims, bind_Ok. }
  split; [intros dim; apply dims_get_scale |].
  split.
  { rewrite Hparse.
    destruct (float_pow bf (Py.int ds)) as [f | e] eqn:Epow.
    - left. exists f. reflexivity.
    - right. rewrite bind_Raise. now rewrite (float_pow_raises _ _ _ Epow). }
  split.
  { intros Hzero. rewrite Hparse, Hzero. split; [reflexivity |].
    apply check_compatible_iff. intros dim. rewrite dims_get_scale.
    unfold dims_get. rewrite lookup_empty. simpl. lia. }
  split.
  { intros Hone. rewrite Hparse, Hone, float_pow_one, bind_Ok.
    now rewrite dims_scale_one. }
  intros -> Hn. rewrite Hparse, (float_pow_of_one _ Hn). reflexivity.
Qed.

Lemma power_suffix_raises_the_unit_to_the_power_witness :
  _parse_simple_unit_with_dims conv "m3" = Ok (1%float, dims_scale {[ "L" := 1 ]} 3)
  /\ dims_get (dims_scale {[ "L" := 1 ]} 3) "L" = 3.
Proof.
  destruct (power_suffix_raises_the_unit_to_the_power
              conv "m" "3" 1 {[ "L" := 1 ]})
    as (Hdims & _ & _ & _ & Hunit);
    [ reflexivity | discriminate | reflexivity | discriminate | reflexivity
    | vm_compute; reflexivity | vm_compute; reflexivity | ].
  split; [apply Hunit; reflexivity |].
  rewrite Hdims. reflexivity.
Defined.

(** ** Characters that no unit has *)

Section ForeignCharacters.
Import Py PyFacts.

Lemma keys_have_no_foreign_char :
  forallb
    (fun c => forallb (fun key => negb (contains c key))
                      (elements (dom (unit_dict conv))))
    foreign_chars = true.
Proof. vm_compute. reflexivity. Qed.

Lemma prefixes_have_no_foreign_char :
  forallb
    (fun c => forallb (fun entry : string * float => negb (contains c (fst entry)))
                      PREFIXES)
    foreign_chars = true.
Proof. vm_compute. reflexivity. Qed.

Lemma key_has_no_foreign_char c key :
  In c foreign_chars -> is_Some (unit_dict conv !! key) ->
  contains c key = false.
Proof.
  intros Hc Hkey. pose proof keys_have_no_foreign_char as H.
  rewrite forallb_forall in H. specialize (H c Hc).
  rewrite forallb_forall in H. apply negb_true_iff, H.
  apply list_elem_of_In, elem_of_elements, elem_of_dom, Hkey.
Qed.

Lemma prefix_has_no_foreign_char c entry :
  In c foreign_chars -> In entry PREFIXES -> contains c (fst entry) = false.
Proof.
  intros Hc He. pose proof prefixes_have_no_foreign_char as H.
  rewrite forallb_forall in H. specialize (H c Hc).
  rewrite forallb_forall in H. apply negb_true_iff, H, He.
Qed.

Lemma startswith_cut u p :
  startswith u p = true -> u = p +:+ drop (String.length p) u.
Proof.
  revert u. induction p as [|b p IH]; intros u H; [now destruct u |].
  destruct u as [|a u]; simpl in H; [discriminate |].
  destruct (Ascii.eqb_spec a b) as [-> | _]; [| discriminate].
  rewrite app_cons. cbn [String.length drop]. f_equal. apply IH, H.
Qed.

Lemma resolvable_has_no_foreign_char c u :
  In c foreign_chars -> table_resolvable conv u = true ->
  contains c u = false.
Proof.
  intros Hc H. unfold table_resolvable in H.
  apply orb_true_iff in H as [H | H].
  - apply bool_decide_eq_true_1 in H. now apply key_has_no_foreign_char.
  - apply existsb_exists in H as (entry & Hentry & H).
    apply andb_prop in H as [Hstart Hkey].
    apply bool_decide_eq_true_1 in Hkey.
    rewrite (startswith_cut _ _ Hstart), contains_app.
    rewrite (prefix_has_no_foreign_char c entry Hc Hentry).
    now rewrite (key_has_no_foreign_char c _ Hc Hkey).
Qed.

Lemma foreign_char_not_digit c : In c foreign_chars -> isdigit c = false.
Proof. intros [<- | [<- | [<- | [<- | []]]]]; reflexivity. Qed.

Lemma digits_do_not_contain c ds :
  isdigit c = false -> all_digits ds = true -> contains c ds = false.
Proof.
  intros Hc. induction ds as [|a ds IH]; simpl; [reflexivity |].
  intros H. apply andb_prop in H as [Ha Hds].
  destruct (Ascii.eqb_spec a c) as [-> | _]; [congruence | now apply IH].
Qed.

Lemma base_keeps_char c t :
  isdigit c = false ->
  contains c (fst (power_suffix t)) = contains c t.
Proof.
  intros Hc. destruct (power_suffix_cut t) as (ds & Hd & Ht & _).
  rewrite Ht at 2. rewrite contains_app.
  rewrite (digits_do_not_contain c ds Hc Hd). now rewrite orb_false_r.
Qed.

Lemma foreign_token_unresolved c t :
  In c foreign_chars -> contains c t = true -> token_unresolved conv t = true.
Proof.
  intros Hc Ht. unfold token_unresolved.
  assert (String.eqb t "" || String.eqb t "1" = false) as ->.
  { destruct (String.eqb_spec t "") as [-> | _]; [discriminate |].
    destruct (String.eqb_spec t "1") as [-> | _]; [| reflexivity].
    destruct Hc as [<- | [<- | [<- | [<- | []]]]]; discriminate. }
  assert (is_temperature_unit t = false) as ->.
  { destruct (is_temperature_unit t) eqn:E; [| reflexivity].
    apply is_temperature_unit_inv in E as [-> | [-> | [-> | ->]]];
      destruct Hc as [<- | [<- | [<- | [<- | []]]]]; discriminate. }
  cbn [negb andb]. apply negb_true_iff.
  destruct (table_resolvable conv (fst (power_suffix t))) eqn:E; [| reflexivity].
  apply (resolvable_has_no_foreign_char c) in E; [| exact Hc].
  rewrite base_keeps_char in E by now apply foreign_char_not_digit.
  congruence.
Qed.

Lemma foreign_token_raises c t :
  In c foreign_chars -> contains c t = true ->
  _parse_simple_unit_with_dims conv t
  = Raise (UnknownUnit (fst (power_suffix t))).
Proof.
  intros Hc Ht. pose proof (foreign_token_unresolved c t Hc Ht) as Hu.
  apply parse_simple_unresolved; [exact Hu |].
  apply table_has_kg. unfold token_unresolved in Hu.
  apply andb_prop in Hu as [_ Hu]. now apply negb_true_iff in Hu.
Qed.

Lemma parse_fails_on_failing_token self expr t e :
  In t (expression_tokens expr) ->
  _parse_simple_unit_with_dims self t = Raise e ->
  succeeds (_parse_unit_expression_with_dims self expr) = false.
Proof.
  intros Hin Ht. destruct (first_error_in self t _ e Hin Ht) as [e' He'].
  now rewrite (parse_expression_first_error self expr e' He').
Qed.

Lemma split_piece c sep s :
  c <> sep -> contains c s = true ->
  exists piece, In piece (split sep s) /\ contains c piece = true.
Proof.
  intros Hne. induction s as [|a s IH]; simpl; [discriminate |].
  destruct (Ascii.eqb_spec a c) as [-> | Hac].
  - intros _. destruct (Ascii.eqb_spec c sep) as [-> | _]; [congruence |].
    destruct (split sep s) as [|p ps] eqn:E; [now apply split_nonempty in E |].
    exists (String c p). split; [now left |]. simpl. now rewrite Ascii.eqb_refl.
  - intros H. destruct (IH H) as (piece & Hin & Hpiece).
    destruct (Ascii.eqb a sep).
    + exists piece. split; [now right | exact Hpiece].
    + destruct (split sep s) as [|p ps]; [destruct Hin |].
      destruct Hin as [<- | Hin].
      * exists (String a p). split; [now left |]. simpl.
        apply Ascii.eqb_neq in Hac. now rewrite Hac.
      * exists piece. split; [now right | exact Hpiece].
Qed.

Lemma group_has_foreign_token c part :
  In c foreign_chars -> contains c part = true ->
  exists t, In t (group_tokens part) /\ contains c t = true.
Proof.
  intros Hc H. unfold group_tokens.
  destruct (contains "." part).
  - apply split_piece; [| exact H].
    destruct Hc as [<- | [<- | [<- | [<- | []]]]]; discriminate.
  - exists part. split; [now left | exact H].
Qed.

End ForeignCharacters.

(** X12: no unit of the table, prefixed or not, contains a space, a slash
    or a parenthesis, so an ASCII token that contains one of them is never
    resolved: [UnknownUnit] is raised, carrying the token without its power
    suffix (and still with the character). *)
Theorem token_with_foreign_character_is_unknown (c : ascii) (t : string) :
  is_ascii t = true ->
  In c foreign_chars ->
  Py.contains c t = true ->
  _parse_simple_unit_with_dims conv t
  = Raise (UnknownUnit (fst (power_suffix t)))
  /\ Py.contains c (fst (power_suffix t)) = true.
Proof.
  intros _ Hc Ht. split; [now apply (foreign_token_raises c) |].
  rewrite base_keeps_char by now apply foreign_char_not_digit. exact Ht.
Qed.

Lemma token_with_foreign_character_is_unknown_witness :
  _parse_simple_unit_with_dims conv "k m2"
  = Raise (UnknownUnit (fst (power_suffix "k m2")))
  /\ Py.contains " " (fst (power_suffix "k m2")) = true.
Proof.
  apply (token_with_foreign_character_is_unknown " " "k m2");
    [reflexivity | simpl; tauto | reflexivity].
Defined.

(** ** Parentheses and slashes that the grammar does not foresee *)

Section Unforeseen.
Import Py PyFacts.

Lemma foreign_not_special c expr :
  In c foreign_chars -> contains c expr = true ->
  String.eqb expr "" || String.eqb expr "1"
    || String.eqb expr "dimensionless" = false.
Proof.
  intros Hc H.
  destruct (String.eqb_spec expr "") as [-> | _]; [discriminate |].
  destruct (String.eqb_spec expr "1") as [-> | _];
    [destruct Hc as [<- | [<- | [<- | [<- | []]]]]; discriminate |].
  destruct (String.eqb_spec expr "dimensionless") as [-> | _];
    [destruct Hc as [<- | [<- | [<- | [<- | []]]]]; discriminate | reflexivity].
Qed.

Lemma endswith_cut s c :
  endswith s c = true -> exists m, s = m +:+ String c EmptyString.
Proof.
  induction s as [|a s IH]; [discriminate |].
  destruct s as [|b s].
  - simpl. intros H. apply Ascii.eqb_eq in H as ->. now exists EmptyString.
  - intros H. destruct (IH H) as [m Hm]. exists (String a m).
    rewrite app_cons. now rewrite <- Hm.
Qed.

Lemma strip_parens_keeps c q :
  c <> "("%char -> c <> ")"%char ->
  contains c (strip_parens q) = contains c q.
Proof.
  intros Hopen Hclose. unfold strip_parens.
  destruct (startswith q "(" && endswith q ")") eqn:E; [| reflexivity].
  apply andb_prop in E as [Hstart Hend].
  destruct (endswith_cut q _ Hend) as [m ->].
  destruct m as [|a m]; [discriminate |].
  rewrite app_cons in *. simpl in Hstart.
  destruct (Ascii.eqb_spec a "(") as [-> | _]; [| discriminate].
  rewrite strip_ends_wrapped. cbn [contains].
  apply Ascii.eqb_neq in Hopen, Hclose.
  rewrite Ascii.eqb_sym, Hopen, contains_app. cbn [contains].
  rewrite Ascii.eqb_sym, Hclose. now rewrite orb_false_r.
Qed.

Lemma split1_cut sep s :
  contains sep s = true ->
  exists p q, split1 sep s = [p; q] /\ contains sep p = false
              /\ s = p +:+ String sep q.
Proof.
  induction s as [|a s IH]; simpl; [discriminate |].
  destruct (Ascii.eqb_spec a sep) as [-> | Hne].
  - intros _. exists EmptyString, s. now repeat split.
  - intros H. destruct (IH H) as (p & q & -> & Hp & Hs).
    exists (String a p), q. split; [reflexivity |]. split.
    + simpl. apply Ascii.eqb_neq in Hne. now rewrite Hne.
    + rewrite app_cons. now rewrite <- Hs.
Qed.

(** The tokens of an expression without a slash that contains the
    character [c]. *)
Lemma no_slash_has_foreign_token c expr :
  In c ["("; ")"]%char ->
  contains "/" expr = false -> contains c expr = true ->
  exists t, In t (expression_tokens expr) /\ contains c t = true.
Proof.
  intros Hc Hslash H.
  assert (In c foreign_chars) as Hf
    by (destruct Hc as [<- | [<- | []]]; simpl; tauto).
  assert (c <> " "%char) as Hspace
    by (destruct Hc as [<- | [<- | []]]; discriminate).
  unfold expression_tokens. rewrite (foreign_not_special c expr Hf H), Hslash.
  destruct (contains "." expr) eqn:Hdot; cbn [negb andb].
  - rewrite (split_unit_expression_no_slash expr Hslash). cbn [numerator denominator].
    destruct (group_has_foreign_token c (remove " " expr) Hf) as (t & Hin & Ht).
    { now rewrite contains_remove. }
    exists t. split; [| exact Ht]. apply in_or_app. left.
    unfold side_tokens. cbn [flat_map]. apply in_or_app. now left.
  - exists expr. split; [now left | exact H].
Qed.

(** The tokens of an expression with a pair of parentheses and more than
    one slash. *)
Lemma two_slashes_have_foreign_token expr :
  contains "(" (remove " " expr) && contains ")" (remove " " expr) = true ->
  (2 < length (split "/" (remove " " expr)))%nat ->
  exists t, In t (expression_tokens expr) /\ contains "/" t = true.
Proof.
  intros Hparen Hlen.
  assert (contains "/" (remove " " expr) = true) as Hslash.
  { destruct (contains "/" (remove " " expr)) eqn:E; [reflexivity |].
    rewrite (split_no_sep _ _ E) in Hlen. simpl in Hlen. lia. }
  assert (contains "/" expr = true) as Hslash'
    by now rewrite contains_remove in Hslash.
  destruct (split1_cut _ _ Hslash) as (p & q & Hsplit1 & Hp & Hcut).
  assert (contains "/" q = true) as Hq.
  { destruct (contains "/" q) eqn:E; [reflexivity |].
    rewrite Hcut, (split_app_sep _ _ _ Hp), (split_no_sep _ _ E) in Hlen.
    simpl in Hlen. lia. }
  unfold expression_tokens.
  assert (In "/"%char foreign_chars) as Hf by (simpl; tauto).
  rewrite (foreign_not_special "/" expr Hf Hslash'), Hslash'. cbn [negb andb].
  unfold _split_unit_expression. rewrite Hslash, Hparen, Hsplit1.
  cbn [negb list_index lookup]. simpl.
  destruct (group_has_foreign_token "/" (strip_parens q) Hf) as (t & Hin & Ht).
  { now rewrite strip_parens_keeps by discriminate. }
  exists t. split; [| exact Ht]. apply in_or_app. right.
  unfold side_tokens. cbn [flat_map]. apply in_or_app. now left.
Qed.

End Unforeseen.

(** X13: an expression without a slash that contains a parenthesis never
    parses: without a slash the parentheses are left in the tokens, and a
    token with a parenthesis is unknown. *)
Theorem parentheses_without_slash_never_parse (c : ascii) (expr : string) :
  In c ["("; ")"]%char ->
  Py.contains "/" expr = false ->
  Py.contains c expr = true ->
  succeeds (_parse_unit_expression_with_dims conv expr) = false.
Proof.
  intros Hc Hslash H.
  destruct (no_slash_has_foreign_token c expr Hc Hslash H) as (t & Hin & Ht).
  eapply (parse_fails_on_failing_token conv expr t); [exact Hin |].
  apply (foreign_token_raises c); [| exact Ht].
  destruct Hc as [<- | [<- | []]]; simpl; tauto.
Qed.

Lemma parentheses_without_slash_never_parse_witness :
  succeeds (_parse_unit_expression_with_dims conv "(kg.m2)") = false.
Proof.
  apply (parentheses_without_slash_never_parse "(" "(kg.m2)");
    [simpl; tauto | reflexivity | reflexivity].
Defined.

(** X14: an expression with a pair of parentheses and more than one slash
    never parses: it is cut at the first slash only, the rest keeps a
    slash, and a token with a slash is unknown. *)
Theorem parentheses_with_two_slashes_never_parse (expr : string) :
  Py.contains "(" (Py.remove " " expr)
    && Py.contains ")" (Py.remove " " expr) = true ->
  (2 < length (Py.split "/" (Py.remove " " expr)))%nat ->
  succeeds (_parse_unit_expression_with_dims conv expr) = false.
Proof.
  intros Hparen Hlen.
  destruct (two_slashes_have_foreign_token expr Hparen Hlen) as (t & Hin & Ht).
  eapply (parse_fails_on_failing_token conv expr t); [exact Hin |].
  apply (foreign_token_raises "/"); [simpl; tauto | exact Ht].
Qed.

Lemma parentheses_with_two_slashes_never_parse_witness :
  succeeds (_parse_unit_expression_with_dims conv "W/(m2.K)/s") = false.
Proof.
  apply (parentheses_with_two_slashes_never_parse "W/(m2.K)/s");
    [reflexivity | simpl; lia].
Defined.

(** ** The dimensions of an expression *)

Section ExpressionDimensions.

Variable self : converter.
Variable dim : string.

Lemma dims_get_empty : dims_get ∅ dim = 0.
Proof. unfold dims_get. now rewrite lookup_empty. Qed.

Lemma exponent_sum_cons t ts :
  exponent_sum self dim (t :: ts)
  = token_exponent self dim t + exponent_sum self dim ts.
Proof. reflexivity. Qed.

Lemma exponent_sum_app l1 l2 :
  exponent_sum self dim (l1 ++ l2)
  = exponent_sum self dim l1 + exponent_sum self dim l2.
Proof.
  induction l1 as [|t l1 IH]; [reflexivity |].
  rewrite <- app_comm_cons, !exponent_sum_cons, IH. lia.
Qed.

Lemma parse_subparts_dims ts f d f' d' :
  parse_subparts self ts f d = Ok (f', d') ->
  dims_get d' dim = dims_get d dim + exponent_sum self dim ts.
Proof.
  revert f d. induction ts as [|t ts IH]; intros f d; cbn [parse_subparts].
  - intros [= _ <-]. cbn. lia.
  - rewrite exponent_sum_cons. unfold token_exponent.
    destruct (_parse_simple_unit_with_dims self t) as [[tf td] |];
      [| discriminate].
    rewrite bind_Ok. intros H. rewrite (IH _ _ H), dims_get_add. lia.
Qed.

Lemma parse_parts_dims ps f d f' d' :
  parse_parts self ps f d = Ok (f', d') ->
  dims_get d' dim = dims_get d dim + exponent_sum self dim (side_tokens ps).
Proof.
  revert f d. induction ps as [|part ps IH]; intros f d; cbn [parse_parts].
  - intros [= _ <-]. cbn. lia.
  - unfold side_tokens. cbn [flat_map]. fold (side_tokens ps).
    rewrite exponent_sum_app. unfold group_tokens.
    destruct (Py.contains "." part).
    + destruct (parse_subparts self (Py.split "." part) 1 ∅)
        as [[sf sd] |] eqn:Hsub; [| discriminate].
      rewrite bind_Ok. intros H. rewrite (IH _ _ H), dims_get_add.
      rewrite (parse_subparts_dims _ _ _ _ _ Hsub), dims_get_empty. lia.
    + rewrite exponent_sum_cons. unfold token_exponent.
      destruct (_parse_simple_unit_with_dims self part) as [[tf td] |];
        [| discriminate].
      rewrite bind_Ok. intros H. rewrite (IH _ _ H), dims_get_add.
      change (exponent_sum self dim []) with 0. lia.
Qed.

Lemma parse_expression_dims expr f d :
  _parse_unit_expression_with_dims self expr = Ok (f, d) ->
  dims_get d dim
  = exponent_sum self dim (numerator_tokens expr)
    - exponent_sum self dim (denominator_tokens expr).
Proof.
  unfold _parse_unit_expression_with_dims, numerator_tokens, denominator_tokens.
  destruct (String.eqb expr "" || String.eqb expr "1"
            || String.eqb expr "dimensionless").
  { intros [= _ <-]. reflexivity. }
  destruct (negb (Py.contains "/" expr) && negb (Py.contains "." expr)).
  { intros H. rewrite exponent_sum_cons. unfold token_exponent.
    rewrite H. change (exponent_sum self dim []) with 0. lia. }
  destruct (_split_unit_expression expr) as [ps |]; [| discriminate].
  rewrite bind_Ok.
  destruct (parse_parts self (numerator ps) 1 ∅) as [[nf nd] |] eqn:Hn;
    [| discriminate].
  rewrite bind_Ok.
  destruct (parse_parts self (denominator ps) 1 ∅) as [[df dd] |] eqn:Hd;
    [| discriminate].
  rewrite bind_Ok.
  destruct (float_div nf df) as [q |]; [| discriminate].
  rewrite bind_Ok. intros [= _ <-].
  rewrite dims_get_sub, (parse_parts_dims _ _ _ _ _ Hn),
    (parse_parts_dims _ _ _ _ _ Hd), !dims_get_empty.
  lia.
Qed.

End ExpressionDimensions.

(** X15: when an expression parses, its exponent on every axis is the sum
    of the exponents of the tokens of its numerator side minus the sum of
    the exponents of the tokens of its denominator side. *)
Theorem expression_dimensions_are_sums_over_tokens
    (self : converter) (expr : string) (f : float) (d : dims) (dim : string) :
  _parse_unit_expression_with_dims self expr = Ok (f, d) ->
  dims_get d dim
  = exponent_sum self dim (numerator_tokens expr)
    - exponent_sum self dim (denominator_tokens expr).
Proof. intros H. exact (parse_expression_dims self dim expr f d H). Qed.

Lemma expression_dimensions_are_sums_over_tokens_witness :
  dims_get (dims_sub {[ "M" := 1; "L" := 2; "T" := -2 ]}
                     {[ "M" := 1; Theta := 1 ]}) "L"
  = exponent_sum conv "L" (numerator_tokens "Btu/(lb.degF)")
    - exponent_sum conv "L" (denominator_tokens "Btu/(lb.degF)").
Proof.
  apply (expression_dimensions_are_sums_over_tokens
           conv "Btu/(lb.degF)" (1055.06 / (0.453592 * (5 / 9)))%float).
  exact parse_btu_per_lb_degF.
Defined.

(** ** The contents of the built table *)

Lemma holds_float_eq o x : holds_float o x = true -> o = Some x.
Proof.
  destruct o as [y |]; simpl; [| discriminate].
  intros H. apply FloatAxioms.Leibniz.eqb_spec in H. now subst.
Qed.

Lemma holds_dims_eq o d : holds_dims o d = true -> o = Some d.
Proof.
  destruct o as [d' |]; simpl; [| discriminate].
  intros H. apply bool_decide_eq_true_1 in H. now subst.
Qed.

Lemma table_contents_checked :
  forallb
    (fun e => declared_entry_kept e && forallb (generated_entry_kept e) PREFIXES)
    (BASE_UNITS ++ DERIVED_UNITS) = true.
Proof. vm_compute. reflexivity. Qed.

(** X16: in the table that [__init__] builds every declared base and
    derived unit has its declared factor and dimensions (no generated entry
    overwrites one with something else, not even [k] + [g] on [kg]), and
    every generated entry [prefix + symbol] has the factor of the symbol
    times the multiplier of the prefix and the dimensions of the symbol. *)
Theorem built_table_holds_declared_and_generated_entries
    (unit : string) (data : unit_data) (prefix : string) (multiplier : float) :
  In (unit, data) (BASE_UNITS ++ DERIVED_UNITS) ->
  In (prefix, multiplier) PREFIXES ->
  unit_dict conv !! unit = Some (factor data)
  /\ dimension_dict conv !! unit = Some (dimensions data)
  /\ (In unit base_si_units ->
      (unit, prefix) <> ("gmol", "k") ->
      unit_dict conv !! (prefix +:+ unit)
      = Some (PrimFloat.mul (factor data) multiplier)
      /\ dimension_dict conv !! (prefix +:+ unit) = Some (dimensions data)).
Proof.
  intros He Hp. pose proof table_contents_checked as H.
  rewrite forallb_forall in H. specialize (H (unit, data) He).
  apply andb_prop in H as [Hdecl Hgen].
  unfold declared_entry_kept in Hdecl. cbn [fst snd] in Hdecl.
  apply andb_prop in Hdecl as [Hf Hd].
  split; [now apply holds_float_eq |].
  split; [now apply holds_dims_eq |].
  intros Hbase Hskip.
  rewrite forallb_forall in Hgen. specialize (Hgen (prefix, multiplier) Hp).
  unfold generated_entry_kept in Hgen. cbn [fst snd] in Hgen.
  assert (existsb (String.eqb unit) base_si_units = true) as Hin.
  { apply existsb_exists. exists unit. split; [exact Hbase |].
    apply String.eqb_refl. }
  assert (String.eqb unit "gmol" && String.eqb prefix "k" = false) as Hno.
  { destruct (String.eqb_spec unit "gmol") as [-> | _]; [| reflexivity].
    destruct (String.eqb_spec prefix "k") as [-> | _]; [| reflexivity].
    now contradiction Hskip. }
  rewrite Hin, Hno in Hgen. cbn [negb andb] in Hgen.
  apply andb_prop in Hgen as [Hgf Hgd].
  split; [now apply holds_float_eq | now apply holds_dims_eq].
Qed.

Lemma built_table_holds_declared_and_generated_entries_witness :
  let gram := UnitData 0.001 {[ "M" := 1 ]} in
  unit_dict conv !! "g" = Some (factor gram)
  /\ dimension_dict conv !! "g" = Some (dimensions gram)
  /\ (In "g" base_si_units ->
      ("g", "k") <> ("gmol", "k") ->
      unit_dict conv !! ("k" +:+ "g") = Some (PrimFloat.mul (factor gram) 1e3)
      /\ dimension_dict conv !! ("k" +:+ "g") = Some (dimensions gram)).
Proof.
  intros gram.
  apply (built_table_holds_declared_and_generated_entries "g" gram "k" 1e3);
    simpl; tauto.
Defined.

(** ** Converting a unit into itself *)

Lemma table_identity_checked :
  forallb (identity_checked conv) (elements (dom (unit_dict conv))) = true.
Proof. vm_compute. reflexivity. Qed.

Lemma identity_checked_converts (self : converter) (u : string) (v : float) :
  identity_checked self u = true ->
  convert self v u u = Ok (if String.eqb u "K" then v else (v * 1)%float).
Proof.
  unfold identity_checked. intros H.
  destruct (is_temperature_unit u) eqn:Htemp.
  - apply String.eqb_eq in H as ->. reflexivity.
  - assert (String.eqb u "K" = false) as ->.
    { destruct (String.eqb_spec u "K") as [-> | _]; [discriminate | reflexivity]. }
    destruct (_parse_unit_expression_with_dims self u) as [[f d] |] eqn:Hparse;
      [| discriminate].
    destruct (float_div f f) as [q |] eqn:Hdiv; [| discriminate].
    apply FloatAxioms.Leibniz.eqb_spec in H as ->.
    rewrite (convert_compatible self v u u f f d d); try assumption.
    + now rewrite Hdiv.
    + now rewrite Htemp.
    + reflexivity.
Qed.

(** X17: for every unit of the built table, generated entries included,
    converting a value from the unit into the same unit succeeds and
    returns the value times exactly 1.0 (the value itself for [K], which
    goes through the temperature branch). *)
Theorem table_unit_converts_into_itself (u : string) (v : float) :
  u ∈ dom (unit_dict conv) ->
  convert conv v u u = Ok (if String.eqb u "K" then v else (v * 1)%float).
Proof.
  intros Hu. apply identity_checked_converts.
  pose proof table_identity_checked as H.
  rewrite forallb_forall in H. apply H.
  now apply list_elem_of_In, elem_of_elements.
Qed.

Lemma table_unit_converts_into_itself_witness :
  convert conv 2.5 "mmHg" "mmHg"
  = Ok (if String.eqb "mmHg" "K" then 2.5 else (2.5 * 1))%float.
Proof.
  apply (table_unit_converts_into_itself "mmHg" 2.5).
  apply elem_of_dom. vm_compute. eauto.
Defined.

(** * The test suite of the package *)

Lemma inconsistent_cases_checked :
  forallb
    (fun case : float * string * string =>
       test_inconsistent_dimensions case
       && match cheuc (fst (fst case)) (snd (fst case)) (snd case) with
          | Raise (IncompatibleDimensions u1 d1 u2 d2) =>
              String.eqb u1 (snd (fst case)) && String.eqb u2 (snd case)
              && negb (_check_dimensional_compatibility d1 d2)
          | _ => false
          end)
    non_consistent_test_cases = true.
Proof. vm_compute. reflexivity. Qed.

(** X18: [test_inconsistent_dimensions] passes on every case of
    [non_consistent_test_cases]: the call raises a [ValueError], and it is
    the one for incompatible dimensions, naming the two units of the case,
    not the one for an unknown unit. *)
Theorem inconsistent_dimension_tests_pass (case : float * string * string) :
  In case non_consistent_test_cases ->
  test_inconsistent_dimensions case = true
  /\ exists d1 d2,
       cheuc (fst (fst case)) (snd (fst case)) (snd case)
       = Raise (IncompatibleDimensions (snd (fst case)) d1 (snd case) d2)
       /\ _check_dimensional_compatibility d1 d2 = false.
Proof.
  intros Hin. pose proof inconsistent_cases_checked as H.
  rewrite forallb_forall in H. specialize (H case Hin).
  apply andb_prop in H as [Htest H]. split; [exact Htest |].
  destruct (cheuc (fst (fst case)) (snd (fst case)) (snd case))
    as [r | [u | u1 d1 u2 d2 | u | | |]]; try discriminate.
  apply andb_prop in H as [H Hcheck]. apply andb_prop in H as [H1 H2].
  apply String.eqb_eq in H1 as ->. apply String.eqb_eq in H2 as ->.
  apply negb_true_iff in Hcheck. eauto.
Qed.

Lemma inconsistent_dimension_tests_pass_witness :
  test_inconsistent_dimensions (0.5%float, "mol/s", "kg/hr") = true
  /\ exists d1 d2,
       cheuc 0.5 "mol/s" "kg/hr"
       = Raise (IncompatibleDimensions "mol/s" d1 "kg/hr" d2)
       /\ _check_dimensional_compatibility d1 d2 = false.
Proof.
  apply (inconsistent_dimension_tests_pass (0.5%float, "mol/s", "kg/hr")).
  simpl. tauto.
Defined.

Lemma exact_cases_checked :
  forallb (fun case => implb (powers_are_exact case) (test_unit_conversions case))
          test_cases = true
  /\ length (filter (fun case => powers_are_exact case = true) test_cases) = 15%nat.
Proof. split; vm_compute; reflexivity. Qed.

(** X19: [test_unit_conversions] passes, within the tolerance of 1e-3, on
    every case of [test_cases] whose tokens carry no power that the model
    only approximates (a power above 1 on a factor other than 1.0); these
    are 15 of the 22 cases. *)
Theorem conversion_tests_with_exact_powers_pass (case : test_case) :
  In case test_cases ->
  powers_are_exact case = true ->
  test_unit_conversions case = true
  /\ length (filter (fun case => powers_are_exact case = true) test_cases)
     = 15%nat.
Proof.
  intros Hin Hexact. destruct exact_cases_checked as [H Hcount].
  split; [| exact Hcount].
  rewrite forallb_forall in H. specialize (H case Hin).
  now rewrite Hexact in H.
Qed.

Lemma conversion_tests_with_exact_powers_pass_witness :
  test_unit_conversions (TestCase 1e4 "cP" "lb/ft.s" 6.719689751) = true
  /\ length (filter (fun case => powers_are_exact case = true) test_cases)
     = 15%nat.
Proof.
  apply (conversion_tests_with_exact_powers_pass
           (TestCase 1e4 "cP" "lb/ft.s" 6.719689751)).
  - simpl. tauto.
  - vm_compute. reflexivity.
Defined.

(** * The example scripts *)

Lemma kW_h_is_unknown :
  is_temperature_unit "kW-h" = false
  /\ first_error conv (expression_tokens "kW-h") = Some (UnknownUnit "kW-h").
Proof. split; vm_compute; reflexivity. Qed.

(** X20: [examples/basic_usage.py] does not run to its end: its first nine
    conversions succeed and the tenth, from ['kW-h'], raises [UnknownUnit]
    for the whole token, as it does with any value and any target unit; the
    hyphen is no separator of the grammar. *)
Theorem basic_usage_stops_at_kW_h (v : float) (to_unit : string) :
  succeeds (run_calls (take 9 basic_usage_calls)) = true
  /\ run_calls basic_usage_calls = Raise (UnknownUnit "kW-h")
  /\ cheuc v "kW-h" to_unit = Raise (UnknownUnit "kW-h").
Proof.
  split; [vm_compute; reflexivity |].
  split; [vm_compute; reflexivity |].
  destruct kW_h_is_unknown as [Htemp Hfirst].
  apply convert_first_error; [| now left].
  now rewrite Htemp.
Qed.

Lemma psia_is_unknown :
  table_resolvable conv "psia" = false
  /\ succeeds (_parse_unit_expression_with_dims conv "J/(mol.K)") = true
  /\ first_error conv (expression_tokens "psia.ft3/(lbmol.degR)")
     = Some (UnknownUnit "psia").
Proof. repeat split; vm_compute; reflexivity. Qed.

(** X21: [examples/chemical_engineering.py] does not run to its end either:
    its first two conversions succeed and the third raises [UnknownUnit]
    for [psia], with any value: [psia], which the docstring of the package
    lists among the supported units, is in no table entry, directly or
    after stripping a prefix. *)
Theorem chemical_engineering_stops_at_psia (v : float) :
  succeeds (run_calls (take 2 chemical_engineering_calls)) = true
  /\ run_calls chemical_engineering_calls = Raise (UnknownUnit "psia")
  /\ cheuc v "J/(mol.K)" "psia.ft3/(lbmol.degR)" = Raise (UnknownUnit "psia")
  /\ table_resolvable conv "psia" = false.
Proof.
  destruct psia_is_unknown as (Htable & Hfrom & Hfirst).
  split; [vm_compute; reflexivity |].
  split; [vm_compute; reflexivity |].
  split; [| exact Htable].
  apply convert_first_error; [reflexivity | right; now split].
Qed.
